(** * pyscreener: the Vina calculation runner, its data class and the
      command-line converters, embedded in Rocq.

    Sources embedded here:
    - [pyscreener/docking/vina/runner.py]  (class [VinaRunner])
    - [pyscreener/docking/vina/data.py]    (enum [Software], dataclass
      [VinaCalculationData])
    - [pyscreener/args.py]                 ([positive_int], the [-k] and
      [--repeats] options of [add_screening_args])

    Python values are modelled as follows.  Text is [string] (one [ascii]
    per character, so the model covers ASCII text); Python [int] is [Z];
    Python [float] is an abstract type with the builtin [float(...)] and
    the f-string rendering taken as parameters; a raised exception is the
    [Raise] branch of [outcome]; a [dict] is a [gmap]. *)

From Stdlib Require Import ZArith QArith String Ascii List Bool Lia.
From stdpp Require Import base option list strings gmap.

Local Open Scope string_scope.
Local Open Scope list_scope.
Local Open Scope Z_scope.

(** ** Exceptions and outcomes *)

(** The exception classes that the embedded code raises, catches or lets
    through. *)
Inductive exn : Type :=
| AttributeError
| ValueError
| IndexError
| TypeError
| UnboundLocalError
| OSError
| CalledProcessError
| PybelError
| ArgumentTypeError (msg : string)
| NotSimulatedError (msg : string)
| InvalidResultError (msg : string).

(** [issubclass(e, subprocess.SubprocessError)] *)
Definition is_SubprocessError (e : exn) : bool :=
  match e with CalledProcessError => true | _ => false end.

(** [issubclass(e, OSError)] *)
Definition is_OSError (e : exn) : bool :=
  match e with OSError => true | _ => false end.

(** The result of evaluating a Python expression or running a block. *)
Inductive outcome (A : Type) : Type :=
| Return (a : A)
| Raise (e : exn).
Arguments Return {A} a.
Arguments Raise {A} e.

Definition obind {A B} (m : outcome A) (k : A -> outcome B) : outcome B :=
  match m with
  | Return a => k a
  | Raise e => Raise e
  end.

Definition returns {A} (m : outcome A) : bool :=
  match m with Return _ => true | Raise _ => false end.

(** ** Python builtins on text *)
Module Py.

(** [c.isspace()] for an ASCII character: TAB, LF, VT, FF, CR, the four
    separators 0x1c..0x1f and the space. *)
Definition isspace (c : ascii) : bool :=
  let n := N_of_ascii c in
  ((9 <=? n) && (n <=? 13) || (28 <=? n) && (n <=? 32))%N.

(** [needle in hay] on strings. *)
Fixpoint contains (needle hay : string) : bool :=
  String.prefix needle hay ||
  match hay with
  | EmptyString => false
  | String _ rest => contains needle rest
  end.

(** [s.split()] with no argument: the maximal runs of non-whitespace
    characters, in order.  [tok] is the token being read, if any. *)
Fixpoint split_from (tok : option string) (s : string) : list string :=
  match s with
  | EmptyString =>
      match tok with Some t => [t] | None => [] end
  | String c rest =>
      if isspace c then
        match tok with
        | Some t => t :: split_from None rest
        | None => split_from None rest
        end
      else
        split_from (Some (default "" tok +:+ String c "")) rest
  end.

Definition split (s : string) : list string := split_from None s.

(** [l[i]] on a list, for [i >= 0]. *)
Definition getitem {A} (l : list A) (i : nat) : outcome A :=
  match l !! i with
  | Some x => Return x
  | None => Raise IndexError
  end.

(** [x or None] on a list: the empty list is falsy. *)
Definition list_or_None {A} (l : list A) : option (list A) :=
  match l with
  | [] => None
  | _ :: _ => Some l
  end.

(** [re.sub('[:,.]', '', s)] *)
Fixpoint strip_colon_comma_dot (s : string) : string :=
  match s with
  | EmptyString => EmptyString
  | String c rest =>
      if (Ascii.eqb c ":" || Ascii.eqb c "," || Ascii.eqb c ".")%char
      then strip_colon_comma_dot rest
      else String c (strip_colon_comma_dot rest)
  end.

(** [s.strip('.')] *)
Fixpoint lstrip_dots (s : string) : string :=
  match s with
  | String c rest => if Ascii.eqb c "." then lstrip_dots rest else s
  | EmptyString => EmptyString
  end.

Fixpoint rstrip_dots (s : string) : string :=
  match s with
  | EmptyString => EmptyString
  | String c rest =>
      match rstrip_dots rest with
      | EmptyString => if Ascii.eqb c "." then EmptyString else String c EmptyString
      | rest' => String c rest'
      end
  end.

Definition strip_dots (s : string) : string := rstrip_dots (lstrip_dots s).

(** *** Integers as text *)

Definition digit_char (d : Z) : ascii := ascii_of_N (48 + Z.to_N d).

(** The [w] low decimal digits of [n], most significant first. *)
Fixpoint fixed_digits (w : nat) (n : Z) : string :=
  match w with
  | O => EmptyString
  | S w' => fixed_digits w' (n / 10) +:+ String (digit_char (n mod 10)) EmptyString
  end.

Fixpoint ndigits_from (fuel : nat) (n : Z) : nat :=
  match fuel with
  | O => 1%nat
  | S fuel' => if n <? 10 then 1%nat else S (ndigits_from fuel' (n / 10))
  end.

(** The number of decimal digits of [n >= 0]; a number below [2^(f+1)]
    has at most [f + 1] digits. *)
Definition ndigits (n : Z) : nat := ndigits_from (Z.to_nat (Z.log2 n)) n.

(** [str(n)] for [n >= 0] *)
Definition str_nonneg (n : Z) : string := fixed_digits (ndigits n) n.

(** [str(n)], also what [f'{n}'] renders for an [int]. *)
Definition str_int (n : Z) : string :=
  if n <? 0 then "-" +:+ str_nonneg (- n) else str_nonneg n.

Fixpoint zeros (k : nat) : string :=
  match k with
  | O => EmptyString
  | S k' => String "0" (zeros k')
  end.

(** [format(n, '0{width}')], i.e. [f'{n:0{width}}']: sign-aware zero
    padding up to [width] characters; a longer number is not cut. *)
Definition format_zero_pad (width : Z) (n : Z) : string :=
  let sign := if n <? 0 then "-" else "" in
  let digits := str_nonneg (Z.abs n) in
  let pad := width - Z.of_nat (String.length sign) - Z.of_nat (String.length digits) in
  sign +:+ zeros (Z.to_nat pad) +:+ digits.

(** [int(text)] for ASCII text: surrounding whitespace is dropped, then
    an optional sign and decimal digits, single underscores allowed
    between digits.  Anything else raises [ValueError]. *)
Definition is_digit (c : ascii) : bool :=
  let n := N_of_ascii c in ((48 <=? n) && (n <=? 57))%N.

Definition digit_value (c : ascii) : Z := Z.of_N (N_of_ascii c) - 48.

(** The characters [int] skips around the number: TAB..CR and the
    space. *)
Definition is_int_space (c : ascii) : bool :=
  let n := N_of_ascii c in ((9 <=? n) && (n <=? 13) || (n =? 32))%N.

Fixpoint lstrip (s : string) : string :=
  match s with
  | String c rest => if is_int_space c then lstrip rest else s
  | EmptyString => EmptyString
  end.

Fixpoint rstrip (s : string) : string :=
  match s with
  | EmptyString => EmptyString
  | String c rest =>
      match rstrip rest with
      | EmptyString => if is_int_space c then EmptyString else String c EmptyString
      | rest' => String c rest'
      end
  end.

(** Digits with optional single underscores between them; [acc] is the
    value read so far and [after_digit] tells whether the previous
    character was a digit. *)
Fixpoint read_digits (acc : Z) (after_digit : bool) (s : string) : option Z :=
  match s with
  | EmptyString => if after_digit then Some acc else None
  | String c rest =>
      if is_digit c then read_digits (10 * acc + digit_value c) true rest
      else if Ascii.eqb c "_" && after_digit then read_digits acc false rest
      else None
  end.

Definition int_of_string (text : string) : outcome Z :=
  let body := rstrip (lstrip text) in
  let parsed :=
    match body with
    | String c rest =>
        if Ascii.eqb c "-" then option_map Z.opp (read_digits 0 false rest)
        else if Ascii.eqb c "+" then read_digits 0 false rest
        else read_digits 0 false body
    | EmptyString => None
    end in
  match parsed with
  | Some z => Return z
  | None => Raise ValueError
  end.

(** Whether the text consists of decimal digits. *)
Fixpoint all_digits (s : string) : bool :=
  match s with
  | EmptyString => true
  | String c rest => is_digit c && all_digits rest
  end.

(** [math.ceil(math.log10(n))] for an [int] [n]; [math.log10] raises
    [ValueError] ("math domain error") for [n <= 0].  The definition
    gives the exact value, the least [d] with [n <= 10^d].  The code
    takes the logarithm as a double: up to [log10_exact_max] its value
    rounded up is the exact one; from [10^15 + 1] on the double of
    [log10(10^k + 1)] is [k] itself and the code's value is one less
    than the exact one there.  What is proved of the value of the width
    is proved up to [log10_exact_max]. *)
Definition log10_exact_max : Z := 10 ^ 15.

Fixpoint ceil_log10_from (fuel : nat) (pow : Z) (d : Z) (n : Z) : Z :=
  if n <=? pow then d
  else match fuel with
       | O => d
       | S fuel' => ceil_log10_from fuel' (10 * pow) (d + 1) n
       end.

Definition ceil_log10 (n : Z) : outcome Z :=
  if n <=? 0 then Raise ValueError
  else Return (ceil_log10_from (S (Z.to_nat (Z.log2 n))) 1 0 n).

End Py.

(** ** [pathlib]: pure POSIX paths *)
Module Pathlib.

(** A path is its root ([""], ["/"] or ["//"]) and its components. *)
Record Path : Type := mk_path {
  root : string;
  parts : list string
}.

(** [s.split('/')]; [cur] is the component being read. *)
Fixpoint split_slash_from (cur : string) (s : string) : list string :=
  match s with
  | EmptyString => [cur]
  | String c rest =>
      if Ascii.eqb c "/" then cur :: split_slash_from EmptyString rest
      else split_slash_from (cur +:+ String c EmptyString) rest
  end.

Definition keep_component (p : string) : bool :=
  negb (String.eqb p "") && negb (String.eqb p ".").

Definition root_of (s : string) : string :=
  match s with
  | String "/" (String "/" (String "/" _)) => "/"
  | String "/" (String "/" _) => "//"
  | String "/" _ => "/"
  | _ => ""
  end.

(** Whether the text holds a separator. *)
Fixpoint has_slash (s : string) : bool :=
  match s with
  | EmptyString => false
  | String c rest => Ascii.eqb c "/" || has_slash rest
  end.

(** [Path(s)]: empty and ["."] components are dropped. *)
Definition of_string (s : string) : Path :=
  mk_path (root_of s) (List.filter keep_component (split_slash_from EmptyString s)).

(** [str(p)], also what an f-string renders for a path. *)
Definition str (p : Path) : string :=
  match root p, parts p with
  | EmptyString, [] => "."
  | r, ps => r +:+ String.concat "/" ps
  end.

(** [p / q] for two paths and [p / s] for a string. *)
Definition joinpath (p q : Path) : Path :=
  if String.eqb (root q) "" then mk_path (root p) (parts p ++ parts q) else q.

Definition join (p : Path) (s : string) : Path := joinpath p (of_string s).

(** [p.name] *)
Definition name (p : Path) : string := List.last (parts p) "".

(** [name.rfind('.')] *)
Fixpoint rfind_dot (s : string) : option nat :=
  match s with
  | EmptyString => None
  | String c rest =>
      match rfind_dot rest with
      | Some i => Some (S i)
      | None => if Ascii.eqb c "." then Some O else None
      end
  end.

(** The position at which the suffix of a file name starts, when it
    has one: the last dot, unless it is the first or the last
    character. *)
Definition suffix_start (nm : string) : option nat :=
  match rfind_dot nm with
  | Some i =>
      if (0 <? i)%nat && (i <? String.length nm - 1)%nat then Some i else None
  | None => None
  end.

(** [p.suffix] *)
Definition suffix (p : Path) : string :=
  let nm := name p in
  match suffix_start nm with
  | Some i => String.substring i (String.length nm - i) nm
  | None => ""
  end.

(** [p.stem] *)
Definition stem (p : Path) : string :=
  let nm := name p in
  match suffix_start nm with
  | Some i => String.substring 0 i nm
  | None => nm
  end.

(** [p.with_suffix(sfx)] for a well-formed [sfx] such as ['.pdbqt'];
    a path with an empty name raises [ValueError]. *)
Definition with_suffix (p : Path) (sfx : string) : outcome Path :=
  if String.eqb (name p) "" then Raise ValueError
  else Return (mk_path (root p) (List.removelast (parts p) ++ [stem p +:+ sfx])).

(** A value passed where a path is expected: [None], a [str] or a
    [Path]. *)
Inductive pathlike : Type :=
| PNone
| PStr (s : string)
| PPath (p : Path).

(** [Path(x)]; [Path(None)] raises [TypeError]. *)
Definition Path_ (x : pathlike) : outcome Path :=
  match x with
  | PNone => Raise TypeError
  | PStr s => Return (of_string s)
  | PPath p => Return p
  end.

(** [f'{x}'] *)
Definition fmt (x : pathlike) : string :=
  match x with
  | PNone => "None"
  | PStr s => s
  | PPath p => str p
  end.

End Pathlib.

(** ** [pyscreener/docking/vina/data.py] *)

(** [class Software(Enum)] with [VINA = auto()] and so on. *)
Inductive Software : Type := VINA | PSOVINA | QVINA | SMINA.

(** [software.value]: [_generate_next_value_] returns [name.lower()]. *)
Definition Software_value (s : Software) : string :=
  match s with
  | VINA => "vina"
  | PSOVINA => "psovina"
  | QVINA => "qvina"
  | SMINA => "smina"
  end.

(** Modelled from the spec: the enumeration [pyscreener.utils.ScoreMode],
    imported by [data.py] and not part of the embedded sources; the spec
    gives it as the closed enumeration BEST, AVERAGE, BOLTZMANN, TOP_K. *)
Inductive ScoreMode : Type := BEST | AVERAGE | BOLTZMANN | TOP_K.

Section Data.
(** [float] is Python's float type; [num] is the type of the docking-box
    coordinates (floats, or the [int]s of the default box). *)
Context {float num : Type}.

(** The values stored in the [result] mapping. *)
Inductive pyval : Type :=
| PyNone
| PyStr (s : string)
| PyFloat (x : float).

(** [Optional[float]] as a Python value. *)
Definition pyval_of_score (score : option float) : pyval :=
  match score with
  | Some x => PyFloat x
  | None => PyNone
  end.

(** The fields of [VinaCalculationData] once [__post_init__] has run.
    [k] is an [int] by annotation; [None] stands for a caller passing
    the missing [-k] option through. *)
Record VinaCalculationData : Type := mk_data {
  smi : string;
  receptor : string;
  software : Software;
  center : num * num * num;
  size : num * num * num;
  ncpu : Z;
  extra : list string;
  name : string;
  input_file : option string;
  in_path : Pathlib.Path;
  out_path : Pathlib.Path;
  score_mode : ScoreMode;
  k : option Z;
  prepared_ligand : Pathlib.pathlike;
  prepared_receptor : Pathlib.pathlike;
  result : option (gmap string pyval)
}.

(** The generated [__init__] followed by [__post_init__]: the fields are
    stored as given, then [extra] is split with [shlex.split] when it is
    truthy and the two directories are turned into paths.  Nothing else
    is looked at. *)
Definition VinaCalculationData_init
    (shlex_split : string -> outcome (list string))
    (smi receptor : string) (software : Software)
    (center size : num * num * num) (ncpu : Z) (extra : option string)
    (name : string) (input_file : option string)
    (in_path out_path : Pathlib.pathlike)
    (score_mode : ScoreMode) (k : option Z)
    (prepared_ligand prepared_receptor : Pathlib.pathlike)
    (result : option (gmap string pyval))
  : outcome VinaCalculationData :=
  obind (match extra with
         | Some (String c rest) => shlex_split (String c rest)
         | Some EmptyString | None => Return []
         end) (fun extra' =>
  obind (Pathlib.Path_ in_path) (fun in_path' =>
  obind (Pathlib.Path_ out_path) (fun out_path' =>
  Return (mk_data smi receptor software center size ncpu extra' name
            input_file in_path' out_path' score_mode k
            prepared_ligand prepared_receptor result)))).

(** The [score] property.  (In the source the message of
    [InvalidResultError] puts the key between double quotes.) *)
Definition score (self : VinaCalculationData) : outcome pyval :=
  match result self with
  | None => Raise (NotSimulatedError "Simulation has not been run!")
  | Some res =>
      match res !! "score" with
      | Some v => Return v
      | None =>                                   (* KeyError *)
          Raise (InvalidResultError
                   "No key: 'score' in result dictionary (self.result)!")
      end
  end.

Definition set_prepared_receptor (v : VinaCalculationData) (p : Pathlib.Path)
  : VinaCalculationData :=
  mk_data (smi v) (receptor v) (software v) (center v) (size v) (ncpu v)
    (extra v) (name v) (input_file v) (in_path v) (out_path v)
    (score_mode v) (k v) (prepared_ligand v) (Pathlib.PPath p) (result v).

Definition set_prepared_ligand (v : VinaCalculationData) (p : Pathlib.Path)
  : VinaCalculationData :=
  mk_data (smi v) (receptor v) (software v) (center v) (size v) (ncpu v)
    (extra v) (name v) (input_file v) (in_path v) (out_path v)
    (score_mode v) (k v) (Pathlib.PPath p) (prepared_receptor v) (result v).

Definition set_result (v : VinaCalculationData) (r : gmap string pyval)
  : VinaCalculationData :=
  mk_data (smi v) (receptor v) (software v) (center v) (size v) (ncpu v)
    (extra v) (name v) (input_file v) (in_path v) (out_path v)
    (score_mode v) (k v) (prepared_ligand v) (prepared_receptor v) (Some r).

End Data.
Arguments pyval : clear implicits.
Arguments VinaCalculationData : clear implicits.

(** ** [pyscreener/args.py] *)
Module Args.

(** [positive_int(arg)] *)
Definition positive_int (arg : string) : outcome Z :=
  obind (Py.int_of_string arg) (fun val =>
  if val <=? 0 then
    Raise (ArgumentTypeError ("Value must be greater than 0! got: " +:+ arg))
  else Return val).

(** The [type=] converters of the scoring options declared by
    [add_screening_args]. *)
Definition repeats_type : string -> outcome Z := positive_int.   (* --repeats *)
Definition k_type : string -> outcome Z := Py.int_of_string.     (* -k *)

(** The value [argparse] stores for an option that takes one argument
    and is converted by [type_]: its [default] when the option is not
    on the command line, the converted text otherwise.  A converter that
    raises makes [argparse] reject the command line. *)
Definition option_value (type_ : string -> outcome Z) (default : option Z)
    (given : option string) : outcome (option Z) :=
  match given with
  | None => Return default
  | Some text => obind (type_ text) (fun v => Return (Some v))
  end.

(** [--repeats]: [type=positive_int, default=1] *)
Definition repeats_arg : option string -> outcome (option Z) :=
  option_value repeats_type (Some 1).

(** [-k]: [type=int], no default *)
Definition k_arg : option string -> outcome (option Z) :=
  option_value k_type None.

End Args.

(** ** The world outside the interpreter *)

(** The file system at the time a file is opened: a path either cannot be
    opened ([open] raises an [OSError]) or holds a sequence of lines. *)
Definition filesystem : Type := string -> option (list string).

(** An open text file object: the lines not yet read and the closed flag.
    The object is shared by everything that iterates over it. *)
Record file_obj : Type := mk_file {
  unread : list string;
  closed : bool
}.

(** [open(path)] *)
Definition open_ (fs : filesystem) (path : string) : outcome file_obj :=
  match fs path with
  | Some lines => Return (mk_file lines false)
  | None => Raise OSError
  end.

(** [fid.close()], as run by leaving a [with] block. *)
Definition close (fid : file_obj) : file_obj := mk_file (unread fid) true.

(** One step of the iterator protocol on a file object, [next(fid)]:
    a closed file raises [ValueError] ("I/O operation on closed file"),
    an exhausted one stops ([None]), otherwise the next line is handed
    out and the object advances. *)
Definition file_next (fid : file_obj) : outcome (option (string * file_obj)) :=
  if closed fid then Raise ValueError
  else match unread fid with
       | [] => Return None
       | line :: rest => Return (Some (line, mk_file rest false))
       end.

(** What the embedded code prints to [sys.stderr], one constructor per
    [print(..., file=sys.stderr)] statement, carrying the interpolated
    values. *)
Inductive stderr_line : Type :=
| FailedToConvert (receptor : string)   (* 'ERROR: failed to convert "{receptor}"' *)
| DockingFailed (argv : list string)    (* 'ERROR: docking failed. argv: {argv}' *)
| Message (text : string).              (* 'Message: {ret.stderr.decode("utf-8")}' *)

(** The state the code acts on: the files and what was printed so far. *)
Record world : Type := mk_world {
  files : filesystem;
  stderr : list stderr_line
}.

(** [subprocess.CompletedProcess]; [proc_stderr] is the captured error
    stream as text, [ret.stderr.decode("utf-8")]. *)
Record CompletedProcess : Type := mk_completed {
  returncode : Z;
  proc_stderr : string
}.

(** [ret.check_returncode()] *)
Definition check_returncode (ret : CompletedProcess) : outcome unit :=
  if returncode ret =? 0 then Return tt else Raise CalledProcessError.

(** Computations that read and change the world and may raise. *)
Definition M (A : Type) : Type := world -> outcome A * world.

Definition ret {A} (a : A) : M A := fun w => (Return a, w).

Definition raise {A} (e : exn) : M A := fun w => (Raise e, w).

Definition lift {A} (o : outcome A) : M A := fun w => (o, w).

Definition bind {A B} (m : M A) (k : A -> M B) : M B :=
  fun w =>
    match m w with
    | (Return a, w') => k a w'
    | (Raise e, w') => (Raise e, w')
    end.

Notation "x <- m ;; k" := (bind m (fun x => k))
  (at level 100, m at next level, right associativity).
Notation "m ;;; k" := (bind m (fun _ => k))
  (at level 100, right associativity).

(** [try: body except <classes>: handler] *)
Definition try_except {A} (body : M A) (catches : exn -> bool)
    (handler : M A) : M A :=
  fun w =>
    match body w with
    | (Raise e, w') => if catches e then handler w' else (Raise e, w')
    | r => r
    end.

(** [print(line, file=sys.stderr)] *)
Definition print_stderr (line : stderr_line) : M unit :=
  fun w => (Return tt, mk_world (files w) (stderr w ++ [line])).

(** ** [pyscreener/docking/vina/runner.py] *)
Module VinaRunner.
(** The static methods that [class VinaRunner] defines. *)
Definition methods : list string :=
  ["prepare"; "prepare_receptor"; "prepare_from_smi"; "prepare_from_file";
   "run"; "build_argv"; "parse_logfile"].

(** [VinaRunner.<attr>]: the name of the method found, or
    [AttributeError] when the class has no such attribute. *)
Definition getattr (attr : string) : outcome string :=
  if existsb (String.eqb attr) methods then Return attr
  else Raise AttributeError.

Definition TABLE_BORDER : string := "-----+------------+----------+----------".

(** [for line in fid: if TABLE_BORDER in line: break] on an open file:
    the lines left unread when the loop ends (the border line itself is
    consumed). *)
Fixpoint skip_to_border (lines : list string) : list string :=
  match lines with
  | [] => []
  | line :: rest =>
      if Py.contains TABLE_BORDER line then rest else skip_to_border rest
  end.

Section Parser.
(** Python's [float] type and the builtin [float(token)], which raises
    [ValueError] ([None]) on text that is not a number. *)
Context {float : Type} (py_float : string -> option float).

(** The body of the scoring loop for one line:
    [scores.append(float(line.split()[1]))] inside
    [try: ... except ValueError: continue]. *)
Definition score_step (line : string) (scores : list float)
  : outcome (list float) :=
  match Py.getitem (Py.split line) 1 with
  | Raise e => Raise e                       (* IndexError: not caught *)
  | Return tok =>
      match py_float tok with
      | Some x => Return (scores ++ [x])
      | None => Return scores                (* ValueError: continue *)
      end
  end.

(** [for line in score_lines: ...] where [score_lines] is the lazy
    [takewhile(lambda line: 'Writing' not in line, fid)].  Every
    iteration first asks the underlying file object for its next line
    ([file_next]); the recursion is on the unread lines of [fid]. *)
Fixpoint score_loop (is_closed : bool) (lines : list string)
  (scores : list float) : outcome (list float) :=
  match file_next (mk_file lines is_closed) with
  | Raise e => Raise e
  | Return None => Return scores
  | Return (Some _) =>
      match lines with
      | [] => Return scores
      | line :: rest =>
          if negb (Py.contains "Writing" line) then
            obind (score_step line scores) (score_loop is_closed rest)
          else Return scores
      end
  end.

(** The [try: with open(logfile) as fid: ... except OSError: pass]
    block: what [score_lines] is bound to afterwards.  [None] is the
    unbound local; otherwise the file object that the lazy
    [takewhile] still reads from, already closed by the [with]. *)
Definition bind_score_lines (fs : filesystem) (logfile : string)
  : outcome (option file_obj) :=
  match open_ fs logfile with
  | Raise e => if is_OSError e then Return None else Raise e
  | Return fid =>
      let fid := mk_file (skip_to_border (unread fid)) (closed fid) in
      (* score_lines = takewhile(..., fid); leaving the block closes fid *)
      Return (Some (close fid))
  end.

(** [VinaRunner.parse_logfile(logfile)] *)
Definition parse_logfile (fs : filesystem) (logfile : string)
  : outcome (option (list float)) :=
  obind (bind_score_lines fs logfile) (fun score_lines =>
  match score_lines with
  | None => Raise UnboundLocalError
  | Some fid =>
      obind (score_loop (closed fid) (unread fid) [])
            (fun scores => Return (Py.list_or_None scores))
  end).

End Parser.

Section Builder.
(** The docking-box coordinates and how an f-string renders one. *)
Context {num : Type} (fmt_num : num -> string).

(** [name or (Path(receptor).stem+'_'+Path(ligand).stem)]: an absent or
    empty name is falsy. *)
Definition resolve_name (name : option string) (receptor ligand : Pathlib.pathlike)
  : outcome string :=
  match name with
  | Some (String c rest) => Return (String c rest)
  | Some EmptyString | None =>
      obind (Pathlib.Path_ receptor) (fun r =>
      obind (Pathlib.Path_ ligand) (fun l =>
      Return (Pathlib.stem r +:+ "_" +:+ Pathlib.stem l)))
  end.

(** The names of the two files, [f'{software.value}_{name}_out.pdbqt'] and
    [f'{software.value}_{name}.log']. *)
Definition out_file (software : Software) (name : string) : string :=
  Software_value software +:+ "_" +:+ name +:+ "_out.pdbqt".

Definition log_file (software : Software) (name : string) : string :=
  Software_value software +:+ "_" +:+ name +:+ ".log".

(** [VinaRunner.build_argv(ligand, receptor, software, center, size,
    ncpu, name, path, extra)] *)
Definition build_argv (ligand receptor : Pathlib.pathlike) (software : Software)
    (center size : num * num * num) (ncpu : Z) (name : option string)
    (path : Pathlib.Path) (extra : option (list string))
  : outcome (list string * Pathlib.Path * Pathlib.Path) :=
  obind (resolve_name name receptor ligand) (fun name =>
  (* extra = extra or [] *)
  let extra := default [] extra in
  let out := Pathlib.join path (out_file software name) in
  let log := Pathlib.join path (log_file software name) in
  let argv :=
    [ Software_value software;
      "--receptor=" +:+ Pathlib.fmt receptor;
      "--ligand=" +:+ Pathlib.fmt ligand;
      "--center_x=" +:+ fmt_num (center.1.1);
      "--center_y=" +:+ fmt_num (center.1.2);
      "--center_z=" +:+ fmt_num (center.2);
      "--size_x=" +:+ fmt_num (size.1.1);
      "--size_y=" +:+ fmt_num (size.1.2);
      "--size_z=" +:+ fmt_num (size.2);
      "--cpu=" +:+ Py.str_int ncpu;
      "--out=" +:+ Pathlib.str out;
      "--log=" +:+ Pathlib.str log ] ++ extra in
  Return (argv, out, log)).

End Builder.

Section Runner.
Context {float num : Type}.
Context (py_float : string -> option float) (fmt_num : num -> string).
(** Running an external program: it cannot be started ([OSError]), or
    it exits with a return code and an error stream, having possibly
    changed the files. *)
Context (sp_run : list string -> filesystem -> outcome (CompletedProcess * filesystem)).
(** [pyscreener.utils.calc_score], defined outside the embedded
    sources. *)
Context (calc_score : list float -> ScoreMode -> option Z -> outcome (option float)).
(** [ray.state.current_node_id()] *)
Context (current_node_id : string).

Abbreviation data := (VinaCalculationData float num).

(** [subprocess.run(argv, ...)] *)
Definition subprocess_run (argv : list string) : M CompletedProcess :=
  fun w =>
    match sp_run argv (files w) with
    | Return (done, fs') => (Return done, mk_world fs' (stderr w))
    | Raise e => (Raise e, w)
    end.

(** Calling the static method [method] on a log file. *)
Definition call_log_parser (method : string) (log : Pathlib.Path)
  : M (option (list float)) :=
  if String.eqb method "parse_logfile" then
    fun w => (parse_logfile py_float (files w) (Pathlib.str log), w)
  else raise TypeError.

(** [VinaRunner.prepare_receptor(vinadata)] *)
Definition prepare_receptor (vinadata : data) : M (option data) :=
  receptor_pdbqt <- lift (Pathlib.with_suffix (Pathlib.of_string (receptor vinadata)) ".pdbqt") ;;
  let receptor_pdbqt := Pathlib.join (in_path vinadata) (Pathlib.name receptor_pdbqt) in
  let argv := ["prepare_receptor"; "-r"; receptor vinadata; "-o"; Pathlib.str receptor_pdbqt] in
  converted <-
    try_except
      (done <- subprocess_run argv ;;
       lift (check_returncode done) ;;;      (* check=True *)
       ret true)
      is_SubprocessError
      (print_stderr (FailedToConvert (receptor vinadata)) ;;;
       ret false) ;;
  if converted : bool then ret (Some (set_prepared_receptor vinadata receptor_pdbqt))
  else ret None.                             (* the handler's return None *)

(** The body of [VinaRunner.run(vinadata)], with the attribute name
    under which the log parser is looked up on the class as an
    argument.  The result carries the updated [vinadata] next to the
    returned scores. *)
Definition run_via (parser_attr : string) (vinadata : data)
  : M (data * option (list float)) :=
  p_ligand <- lift (Pathlib.Path_ (prepared_ligand vinadata)) ;;
  let ligand_name := Pathlib.stem p_ligand in
  let name := Pathlib.stem (Pathlib.of_string (receptor vinadata)) +:+ "_" +:+ ligand_name in
  built <- lift (build_argv fmt_num (prepared_ligand vinadata)
                   (prepared_receptor vinadata) (software vinadata)
                   (center vinadata) (size vinadata) (ncpu vinadata)
                   (Some name) (out_path vinadata) (Some (extra vinadata))) ;;
  let argv := built.1.1 in
  let log := built.2 in
  done <- subprocess_run argv ;;
  try_except (lift (check_returncode done))
    is_SubprocessError
    (print_stderr (DockingFailed argv) ;;;
     print_stderr (Message (proc_stderr done))) ;;;
  parser <- lift (getattr parser_attr) ;;
  scores <- call_log_parser parser log ;;
  score <- match scores with
           | None => ret None
           | Some scores => lift (calc_score scores (score_mode vinadata) (k vinadata))
           end ;;
  let res : gmap string (pyval float) :=
    <["smiles" := PyStr (smi vinadata)]>
    (<["name" := PyStr ligand_name]>
    (<["node_id" := PyStr (Py.strip_colon_comma_dot current_node_id)]>
    (<["score" := pyval_of_score score]> ∅))) in
  ret (set_result vinadata res, scores).

(** [VinaRunner.run(vinadata)]: the parser is looked up as
    [VinaRunner.parse_log_file]. *)
Definition run : data -> M (data * option (list float)) :=
  run_via "parse_log_file".

(** [VinaRunner.prepare(vinadata)].  The value bound to [vinadata] after
    the first call is [None] or the calculation; the second call looks
    [prepare_ligand] up on the class, and [call_method] stands for what
    calling a looked-up static method on that value does. *)
Definition prepare (call_method : string -> option data -> M (option data))
    (vinadata : data) : M (option data) :=
  vinadata <- prepare_receptor vinadata ;;
  method <- lift (getattr "prepare_ligand") ;;
  vinadata <- call_method method vinadata ;;
  ret vinadata.

End Runner.

Section Pybel.
Context {float num : Type}.
(** Molecules of the external toolkit [pybel], with the calls the
    runner makes on them.  A call that mutates the molecule returns
    the molecule after the call. *)
Context {mol : Type}.
Context (readstring : string -> outcome mol).             (* pybel.readstring('smi', s) *)
Context (readfile : string -> string -> outcome (list mol)). (* list(pybel.readfile(fmt, f)) *)
Context (make3D addh calccharges : mol -> outcome mol).
Context (title : mol -> string).                          (* mol.title *)
Context (write_smi : mol -> string).                      (* mol.write() *)
Context (write_pdbqt : mol -> string -> filesystem -> outcome filesystem).

Abbreviation data := (VinaCalculationData float num).

(** [mol.write(format='pdbqt', filename=pdbqt, overwrite=True, ...)] *)
Definition mol_write (m : mol) (pdbqt : string) : M unit :=
  fun w =>
    match write_pdbqt m pdbqt (files w) with
    | Return fs' => (Return tt, mk_world fs' (stderr w))
    | Raise e => (Raise e, w)
    end.

(** The [try: ... except Exception: pass] block of
    [prepare_from_smi]: what the local [mol] is bound to afterwards
    ([None]: never bound).  A failing call leaves the molecule as the
    calls before it made it. *)
Definition try_make_mol (smiles : string) : option mol :=
  match readstring smiles with
  | Raise _ => None
  | Return m0 =>
      match make3D m0 with
      | Raise _ => Some m0
      | Return m1 =>
          match addh m1 with
          | Raise _ => Some m1
          | Return m2 =>
              match calccharges m2 with
              | Raise _ => Some m2
              | Return m3 => Some m3
              end
          end
      end
  end.

(** [VinaRunner.prepare_from_smi(vinadata)] *)
Definition prepare_from_smi (vinadata : data) : M data :=
  let pdbqt := Pathlib.join (in_path vinadata) (name vinadata +:+ ".pdbqt") in
  match try_make_mol (smi vinadata) with
  | None => raise UnboundLocalError
  | Some m =>
      mol_write m (Pathlib.str pdbqt) ;;;
      ret (set_prepared_ligand vinadata pdbqt)
  end.

(** [width = ceil(log10(len(mols) + offset)) + 1]; the width the code
    computes as long as [len(mols) + offset <= Py.log10_exact_max]. *)
Definition name_width (n_mols : nat) (offset : Z) : outcome Z :=
  obind (Py.ceil_log10 (Z.of_nat n_mols + offset)) (fun c => Return (c + 1)).

(** The name given to the [i]-th molecule. *)
Definition ligand_name (width offset : Z) (i : nat) (m : mol) : string :=
  match title m with
  | String c rest => String c rest
  | EmptyString => "ligand_" +:+ Py.format_zero_pad width (Z.of_nat i + offset)
  end.

(** The PDBQT path written for the [i]-th molecule. *)
Definition pdbqt_path (path : Pathlib.Path) (width offset : Z) (i : nat) (m : mol)
  : string :=
  Pathlib.str (Pathlib.join path
                 (ligand_name width offset i m +:+ ".pdbqt")).

(** The loop [for i, mol in enumerate(mols)] from index [i] on. *)
Fixpoint convert_from (path : Pathlib.Path) (width offset : Z) (i : nat)
    (mols : list mol) (smis pdbqts : list string)
  : M (list string * list string) :=
  match mols with
  | [] => ret (smis, pdbqts)
  | m :: rest =>
      let name := ligand_name width offset i m in
      let smi := write_smi m in
      let pdbqt := Pathlib.str (Pathlib.join path (name +:+ ".pdbqt")) in
      m1 <- lift (addh m) ;;
      m2 <- lift (calccharges m1) ;;
      mol_write m2 pdbqt ;;;
      convert_from path width offset (S i) rest (smis ++ [smi]) (pdbqts ++ [pdbqt])
  end.

(** [VinaRunner.prepare_from_file(filename, path, offset)] *)
Definition prepare_from_file (filename path : string) (offset : Z)
  : M (list (string * string)) :=
  let path := Pathlib.of_string path in
  let format := Py.strip_dots (Pathlib.suffix (Pathlib.of_string filename)) in
  mols <- lift (readfile format filename) ;;
  width <- lift (name_width (length mols) offset) ;;
  lists <- convert_from path width offset 0 mols [] [] ;;
  ret (combine lists.1 lists.2).

End Pybel.

End VinaRunner.

(** ** [pyscreener/docking/dock/metadata.py] *)
Module DOCK.
Section Metadata.
(** [float] is Python's float type; [SphereMode] is the enumeration of
    [pyscreener.docking.dock.utils], with its [from_str]; [pyobj] is the
    type of the values of the attributes that the base class
    [CalculationMetadata] provides, [base_getattr] giving the attribute
    of that name when the base class has one.  These three modules are
    outside the embedded sources. *)
Context {float SphereMode pyobj : Type}.
Context (from_str : pyobj -> outcome SphereMode).
Context (base_getattr : string -> option pyobj).

(** [Union[SphereMode, str]] *)
Inductive sphere_mode_field : Type :=
| Mode (m : SphereMode)
| ModeName (s : string).

(** The fields that [DOCKMetadata] declares. *)
Record DOCKMetadata : Type := mk_metadata {
  probe_radius : float;
  steric_clash_dist : float;
  min_radius : float;
  max_radius : float;
  sphere_mode : sphere_mode_field;
  docked_ligand_file : option string;
  enclose_spheres : bool;
  buffer : float;
  prepared_ligand : Pathlib.pathlike;
  prepared_receptor : option (string * string)
}.

Definition fields : list string :=
  ["probe_radius"; "steric_clash_dist"; "min_radius"; "max_radius";
   "sphere_mode"; "docked_ligand_file"; "enclose_spheres"; "buffer";
   "prepared_ligand"; "prepared_receptor"].

(** [self.<attr>] for a name that is not one of the declared fields: the
    base class answers, or the lookup raises [AttributeError]. *)
Definition getattr_inherited (attr : string) : outcome pyobj :=
  match base_getattr attr with
  | Some x => Return x
  | None => Raise AttributeError
  end.

Definition set_sphere_mode (self : DOCKMetadata) (m : SphereMode) : DOCKMetadata :=
  mk_metadata (probe_radius self) (steric_clash_dist self) (min_radius self)
    (max_radius self) (Mode m) (docked_ligand_file self) (enclose_spheres self)
    (buffer self) (prepared_ligand self) (prepared_receptor self).

(** [DOCKMetadata.__post_init__]: for a mode given as text the
    enumeration member is looked up from [self.sphere_more]. *)
Definition post_init (self : DOCKMetadata) : outcome DOCKMetadata :=
  match sphere_mode self with
  | ModeName _ =>
      obind (getattr_inherited "sphere_more") (fun text =>
      obind (from_str text) (fun m =>
      Return (set_sphere_mode self m)))
  | Mode _ => Return self
  end.

End Metadata.
End DOCK.

(** ** Concrete inputs used below *)
Module Examples.

(** A line of a text file, with its newline. *)
Definition ln (text : string) : string := text +:+ String (ascii_of_nat 10) EmptyString.

(** A Vina log whose table has three rows. *)
Definition three_row_log : list string :=
  [ ln "mode |   affinity | dist from best mode";
    ln "     | (kcal/mol) | rmsd l.b.| rmsd u.b.";
    ln "-----+------------+----------+----------";
    ln "   1         -8.1      0.000      0.000";
    ln "   2         -7.9      1.512      2.044";
    ln "   3         -7.2      2.301      4.870";
    ln "Writing output ... done." ].

(** A log that the engine left before printing its table. *)
Definition no_border_log : list string :=
  [ ln "Reading input ... done.";
    ln "Setting up the scoring function ... done." ].

(** A table with an empty line between two rows. *)
Definition short_line_log : list string :=
  [ ln "-----+------------+----------+----------";
    ln "   1         -8.1      0.000      0.000";
    ln "";
    ln "   2         -7.9      1.512      2.044";
    ln "Writing output ... done." ].

(** A file system holding one file. *)
Definition one_file (path : string) (lines : list string) : filesystem :=
  fun p => if String.eqb p path then Some lines else None.

Definition no_files : filesystem := fun _ => None.

(** A docking program that writes [lines] to the log file [log] and
    exits with [code], having printed [err] on its error stream. *)
Definition docking_program (code : Z) (err : string) (log : string)
    (lines : list string)
  : list string -> filesystem -> outcome (CompletedProcess * filesystem) :=
  fun _ fs =>
    Return (mk_completed code err,
            fun p => if String.eqb p log then Some lines else fs p).

(** A calculation with its inputs prepared, on integer box coordinates. *)
Definition prepared_data {float : Type} : VinaCalculationData float Z :=
  mk_data "CCO" "rec.pdb" VINA (1, 2, 3) (10, 10, 10) 4 [] "lig" None
    (Pathlib.of_string "in") (Pathlib.of_string "out") BEST (Some 1)
    (Pathlib.PPath (Pathlib.of_string "in/lig.pdbqt"))
    (Pathlib.PPath (Pathlib.of_string "in/rec.pdbqt")) None.

Definition quiet_world (fs : filesystem) : world := mk_world fs [].

(** Splitting the extra flags at white space, as [shlex.split] does for
    text without quotes or escapes. *)
Definition shlex_words (text : string) : outcome (list string) :=
  Return (Py.split text).

(** A toolkit whose molecules are their titles and whose calls all
    succeed; a PDBQT file is written as one line. *)
Definition toolkit_title (m : string) : string := m.
Definition toolkit_smiles (m : string) : string := "C".
Definition toolkit_ok (m : string) : outcome string := Return m.
Definition toolkit_write (m pdbqt : string) (fs : filesystem)
  : outcome filesystem :=
  Return (fun p => if String.eqb p pdbqt then Some ["REMARK " +:+ m] else fs p).

(** Reading a file of [n] molecules without titles. *)
Definition toolkit_readfile (n : nat) (format filename : string)
  : outcome (list string) :=
  Return (replicate n "").

(** A toolkit that reads the SMILES string and fails to embed it in 3D. *)
Definition toolkit_readstring (smiles : string) : outcome string := Return smiles.
Definition toolkit_make3D_fails (m : string) : outcome string := Raise PybelError.

(** A toolkit that cannot read the SMILES string. *)
Definition toolkit_readstring_fails (smiles : string) : outcome string :=
  Raise PybelError.

(** A program that exits with status 0 and changes no file, and one
    that cannot be started. *)
Definition quiet_program
  : list string -> filesystem -> outcome (CompletedProcess * filesystem) :=
  fun _ fs => Return (mk_completed 0 "", fs).

Definition missing_program
  : list string -> filesystem -> outcome (CompletedProcess * filesystem) :=
  fun _ _ => Raise OSError.

(** A calculation as constructed, nothing prepared yet, and one whose
    receptor path names no file. *)
Definition unprepared_data {float : Type} : VinaCalculationData float Z :=
  mk_data "CCO" "structures/rec.pdb" VINA (1, 2, 3) (10, 10, 10) 4 [] "lig" None
    (Pathlib.of_string "in") (Pathlib.of_string "out") BEST (Some 1)
    Pathlib.PNone Pathlib.PNone None.

Definition nameless_receptor_data {float : Type} : VinaCalculationData float Z :=
  mk_data "CCO" "/" VINA (1, 2, 3) (10, 10, 10) 4 [] "lig" None
    (Pathlib.of_string "in") (Pathlib.of_string "out") BEST (Some 1)
    Pathlib.PNone Pathlib.PNone None.

(** A conversion program that exits with status 1. *)
Definition failing_program
  : list string -> filesystem -> outcome (CompletedProcess * filesystem) :=
  fun _ fs => Return (mk_completed 1 "cannot parse", fs).

End Examples.

(** ** The score reducer *)
Section Reducer.
Context {float : Type}.
(** The arithmetic of Python floats that the reducer uses. *)
Context (f_of_nat : nat -> float).
Context (f_add f_sub f_mul f_div : float -> float -> float).
Context (f_exp : float -> float) (f_leb : float -> float -> bool).
(** The product of the gas constant and the reference temperature. *)
Context (RT : float).

Definition f_min (x y : float) : float := if f_leb x y then x else y.

Definition f_sum (l : list float) : float := foldl f_add (f_of_nat 0) l.

Definition f_mean (l : list float) : float := f_div (f_sum l) (f_of_nat (length l)).

Fixpoint f_insert (x : float) (l : list float) : list float :=
  match l with
  | [] => [x]
  | y :: rest => if f_leb x y then x :: l else y :: f_insert x rest
  end.

(** The scores in ascending order, the best (lowest) first. *)
Definition f_sort (l : list float) : list float := foldr f_insert [] l.

(** Modelled from the spec: [pyscreener.utils.calc_score], which the
    runner calls and which is not part of the embedded sources.  The spec
    (4.1): an empty input gives no score; BEST is the minimum; AVERAGE the
    arithmetic mean; BOLTZMANN the Boltzmann-weighted average, the
    minimum subtracted before exponentiating; TOP_K the mean of the [k]
    lowest scores, all of them when [k] exceeds their number.  For TOP_K
    with a missing or non-positive [k] the spec names no value; the model
    gives none. *)
Definition calc_score (scores : list float) (mode : ScoreMode) (k : option Z)
  : option float :=
  match scores with
  | [] => None
  | s0 :: rest =>
      match mode with
      | BEST => Some (foldl f_min s0 rest)
      | AVERAGE => Some (f_mean scores)
      | BOLTZMANN =>
          let lowest := foldl f_min s0 rest in
          let weights :=
            map (fun s => f_exp (f_div (f_sub lowest s) RT)) scores in
          Some (f_div (f_sum (zip_with f_mul scores weights)) (f_sum weights))
      | TOP_K =>
          match k with
          | Some k =>
              if 0 <? k then Some (f_mean (take (Z.to_nat k) (f_sort scores)))
              else None
          | None => None
          end
      end
  end.

End Reducer.

(** ** The table a log holds *)
Section Table.
Context {float : Type} (py_float : string -> option float).

(** What the scoring loop is written to compute over a file that is
    still open: the rows up to the terminator, each giving the float of
    its second token when that is a number. *)
Definition row_score (line : string) : option float :=
  tok ← Py.split line !! 1%nat; py_float tok.

Fixpoint table_rows (lines : list string) : list string :=
  match lines with
  | [] => []
  | line :: rest =>
      if Py.contains "Writing" line then [] else line :: table_rows rest
  end.

End Table.

(** * Properties *)

(** ** The log parser *)
Section ParserFacts.
Context {float : Type} (py_float : string -> option float).

(** Reading from a closed file raises at the first request. *)
Lemma score_loop_closed (lines : list string) (scores : list float) :
  VinaRunner.score_loop py_float true lines scores = Raise ValueError.
Proof. destruct lines; reflexivity. Qed.

(** After the [try] block the file object is closed whenever the file
    could be opened. *)
Lemma bind_score_lines_closed fs logfile lines :
  fs logfile = Some lines ->
  VinaRunner.bind_score_lines fs logfile
  = Return (Some (mk_file (VinaRunner.skip_to_border lines) true)).
Proof. intros H. unfold VinaRunner.bind_score_lines, open_. now rewrite H. Qed.

Lemma parse_logfile_outcome fs logfile :
  VinaRunner.parse_logfile py_float fs logfile
  = match fs logfile with
    | Some _ => Raise ValueError
    | None => Raise UnboundLocalError
    end.
Proof.
  unfold VinaRunner.parse_logfile, VinaRunner.bind_score_lines, open_.
  destruct (fs logfile) as [lines|]; simpl; [|reflexivity].
  now rewrite score_loop_closed.
Qed.

Lemma parse_logfile_never_returns fs logfile :
  returns (VinaRunner.parse_logfile py_float fs logfile) = false.
Proof. rewrite parse_logfile_outcome. now destruct (fs logfile). Qed.

Lemma score_loop_open (lines : list string) (scores : list float) :
  Forall (fun line => (2 <= length (Py.split line))%nat) (table_rows lines) ->
  VinaRunner.score_loop py_float false lines scores
  = Return (scores ++ omap (row_score py_float) (table_rows lines)).
Proof.
  revert scores. induction lines as [|line rest IH]; intros scores Hrows.
  - simpl. now rewrite app_nil_r.
  - simpl in *. destruct (Py.contains "Writing" line); simpl.
    + now rewrite app_nil_r.
    + inversion Hrows as [|? ? Hlen Hrest]; subst.
      unfold VinaRunner.score_step, Py.getitem, row_score.
      destruct (Py.split line !! 1%nat) as [tok|] eqn:Htok.
      * simpl. destruct (py_float tok) as [x|]; simpl.
        -- rewrite IH by assumption. now rewrite <- app_assoc.
        -- now apply IH.
      * apply lookup_ge_None in Htok. lia.
Qed.

(** One turn of the loop over an open file, on a row of the table. *)
Lemma score_loop_row (line : string) (rest : list string) (scores : list float) :
  Py.contains "Writing" line = false ->
  VinaRunner.score_loop py_float false (line :: rest) scores
  = obind (VinaRunner.score_step py_float line scores)
          (VinaRunner.score_loop py_float false rest).
Proof. intros Hw. simpl. now rewrite Hw. Qed.

(** A row with fewer than two tokens stops the loop with [IndexError],
    also over an open file. *)
Lemma score_loop_short_row (line : string) (rest : list string) (scores : list float) :
  Py.contains "Writing" line = false ->
  (length (Py.split line) < 2)%nat ->
  VinaRunner.score_loop py_float false (line :: rest) scores = Raise IndexError.
Proof.
  intros Hw Hlen. simpl. rewrite Hw. simpl.
  unfold VinaRunner.score_step, Py.getitem.
  destruct (Py.split line !! 1%nat) eqn:Htok; [|reflexivity].
  apply lookup_lt_Some in Htok. lia.
Qed.

End ParserFacts.

(** C3 (the code departs from it).  The claim: the parser returns absent
    when the border is never found, when the file cannot be opened, or
    when no line holds a number, and the ordered numbers otherwise.  The
    code returns in none of these cases: a file that cannot be opened
    leaves [score_lines] unbound ([UnboundLocalError]), and a file that
    can be opened is closed before the lazy [takewhile] is read
    ([ValueError]), whatever it holds. *)
Theorem parse_logfile_raises_on_every_log
    {float : Type} (py_float : string -> option float)
    (fs : filesystem) (logfile : string) :
  VinaRunner.parse_logfile py_float fs logfile
  = match fs logfile with
    | Some _ => Raise ValueError
    | None => Raise UnboundLocalError
    end
  /\ forall scores, VinaRunner.parse_logfile py_float fs logfile <> Return scores.
Proof.
  split.
  - apply parse_logfile_outcome.
  - intros scores Heq.
    pose proof (parse_logfile_never_returns py_float fs logfile) as Hnr.
    now rewrite Heq in Hnr.
Qed.

(** C4 (the code departs from it).  The claim: a transcript with the
    border line, three well-formed rows and the terminator gives exactly
    three scores in file order, and a transcript with no border line
    gives absent.  On both transcripts the code raises [ValueError]; the
    loop itself, run over the rows while the file is open, would give the
    three scores. *)
Theorem parse_logfile_three_rows_raises
    {float : Type} (py_float : string -> option float) :
  VinaRunner.parse_logfile py_float
    (Examples.one_file "vina.log" Examples.three_row_log) "vina.log"
  = Raise ValueError
  /\ VinaRunner.parse_logfile py_float
       (Examples.one_file "vina.log" Examples.no_border_log) "vina.log"
     = Raise ValueError
  /\ VinaRunner.score_loop py_float false
       (VinaRunner.skip_to_border Examples.three_row_log) []
     = Return (omap py_float ["-8.1"; "-7.9"; "-7.2"]).
Proof.
  split; [|split].
  - now rewrite parse_logfile_outcome.
  - now rewrite parse_logfile_outcome.
  - rewrite score_loop_open.
    + reflexivity.
    + vm_compute. repeat constructor.
Qed.

(** C5 (the code departs from it).  The claim: a row from which no number
    can be taken, a row with fewer than two tokens included, is skipped
    and the other scores are returned in order.  The loop catches
    [ValueError] only: on a table with an empty line between two rows it
    stops with [IndexError] even over an open file, and the parser as a
    whole raises [ValueError] before it looks at any row. *)
Theorem short_row_aborts_the_parse
    {float : Type} (py_float : string -> option float) :
  VinaRunner.score_loop py_float false
    (VinaRunner.skip_to_border Examples.short_line_log) []
  = Raise IndexError
  /\ VinaRunner.parse_logfile py_float
       (Examples.one_file "vina.log" Examples.short_line_log) "vina.log"
     = Raise ValueError.
Proof.
  split.
  - change (VinaRunner.skip_to_border Examples.short_line_log)
      with [ Examples.ln "   1         -8.1      0.000      0.000";
             Examples.ln "";
             Examples.ln "   2         -7.9      1.512      2.044";
             Examples.ln "Writing output ... done." ].
    rewrite score_loop_row by reflexivity.
    unfold VinaRunner.score_step.
    change (Py.getitem (Py.split (Examples.ln "   1         -8.1      0.000      0.000")) 1)
      with (@Return string "-8.1").
    cbv beta iota.
    destruct (py_float "-8.1"); cbn [obind];
      (rewrite score_loop_short_row; [reflexivity | reflexivity | vm_compute; lia]).
  - now rewrite parse_logfile_outcome.
Qed.

(** ** The reducer and the runner *)

(** The reducer of the spec gives no score on an empty list, in every
    mode and for every [k]. *)
Lemma calc_score_nil {float : Type} (f_of_nat : nat -> float)
    (f_add f_sub f_mul f_div : float -> float -> float)
    (f_exp : float -> float) (f_leb : float -> float -> bool) (RT : float)
    (mode : ScoreMode) (k : option Z) :
  calc_score f_of_nat f_add f_sub f_mul f_div f_exp f_leb RT [] mode k = None.
Proof. reflexivity. Qed.

Section RunnerFacts.
Context {float num : Type}.
Context (py_float : string -> option float) (fmt_num : num -> string).
Context (sp_run : list string -> filesystem -> outcome (CompletedProcess * filesystem)).
Context (calc_score : list float -> ScoreMode -> option Z -> outcome (option float)).
Context (current_node_id : string).

(** The class has no attribute [parse_log_file]. *)
Lemma getattr_parse_log_file :
  VinaRunner.getattr "parse_log_file" = Raise AttributeError.
Proof. reflexivity. Qed.

Lemma call_parse_logfile_never_returns (log : Pathlib.Path) (w : world) :
  returns (VinaRunner.call_log_parser py_float "parse_logfile" log w).1 = false.
Proof. apply parse_logfile_never_returns. Qed.

Ltac run_cases :=
  repeat match goal with
         | |- context [match ?x with _ => _ end] =>
             lazymatch x with
             | context [match _ with _ => _ end] => fail
             | _ => destruct x eqn:?
             end
         end.

(** Whatever the calculation and the world, [run] ends in an exception:
    no result is recorded and no scores are returned. *)
Lemma run_never_returns (vinadata : VinaCalculationData float num) (w : world) :
  returns (VinaRunner.run py_float fmt_num sp_run calc_score current_node_id
             vinadata w).1 = false.
Proof.
  unfold VinaRunner.run, VinaRunner.run_via.
  rewrite getattr_parse_log_file.
  unfold bind, lift, try_except, VinaRunner.subprocess_run, print_stderr.
  run_cases; simpl in *; try reflexivity; try congruence.
Qed.

(** The same holds when the parser is looked up under the name the class
    gives it. *)
Lemma run_via_parse_logfile_never_returns
    (vinadata : VinaCalculationData float num) (w : world) :
  returns (VinaRunner.run_via py_float fmt_num sp_run calc_score current_node_id
             "parse_logfile" vinadata w).1 = false.
Proof.
  unfold VinaRunner.run_via.
  change (VinaRunner.getattr "parse_logfile") with (@Return string "parse_logfile").
  unfold VinaRunner.call_log_parser. cbn [String.eqb Ascii.eqb Bool.eqb].
  unfold bind, lift, try_except, VinaRunner.subprocess_run, print_stderr.
  repeat match goal with
         | |- context [VinaRunner.parse_logfile ?f ?fs ?l] =>
             let H := fresh "Hp" in
             pose proof (parse_logfile_never_returns f fs l) as H;
             destruct (VinaRunner.parse_logfile f fs l); [discriminate H|]; clear H
         | |- context [match ?x with _ => _ end] =>
             lazymatch x with
             | context [match _ with _ => _ end] => fail
             | _ => destruct x eqn:?
             end
         end; simpl in *; try reflexivity; try congruence.
Qed.

End RunnerFacts.

(** C1 (the code departs from it).  The claim: when parsing yields no
    scores, [run] records a result whose score is absent, neither zero
    nor an exception.  On a calculation whose engine exits with 0 and
    leaves an empty log, [run] raises [AttributeError] at the lookup of
    [VinaRunner.parse_log_file] and records nothing; with the parser
    looked up under its defined name it raises [ValueError]; and no
    calculation at all makes [run] return. *)
Theorem run_on_empty_log_raises
    {float : Type} (py_float : string -> option float)
    (calc_score : list float -> ScoreMode -> option Z -> outcome (option float))
    (current_node_id : string) :
  let program := Examples.docking_program 0 "" "out/vina_rec_lig.log" [] in
  let w := Examples.quiet_world Examples.no_files in
  (VinaRunner.run py_float Py.str_int program calc_score current_node_id
     Examples.prepared_data w).1 = Raise AttributeError
  /\ (VinaRunner.run_via py_float Py.str_int program calc_score current_node_id
        "parse_logfile" Examples.prepared_data w).1 = Raise ValueError
  /\ forall sp_run (vinadata : VinaCalculationData float Z) w',
       returns (VinaRunner.run py_float Py.str_int sp_run calc_score
                  current_node_id vinadata w').1 = false.
Proof.
  split; [|split].
  - reflexivity.
  - reflexivity.
  - intros. apply run_never_returns.
Qed.

(** C2 (the code departs from it).  The claim: on a non-zero exit or an
    unparseable log [run] does not raise and records a result, the score
    being absent only when the log holds no score.  On a calculation
    whose engine exits with 1 after writing a table of three rows, [run]
    prints the two error lines and then raises [AttributeError]; with the
    parser looked up under its defined name it raises [ValueError]; the
    three scores of the log are never recorded. *)
Theorem run_on_failed_process_raises
    {float : Type} (py_float : string -> option float)
    (calc_score : list float -> ScoreMode -> option Z -> outcome (option float))
    (current_node_id : string) :
  let program :=
    Examples.docking_program 1 "out of memory" "out/vina_rec_lig.log"
      Examples.three_row_log in
  let w := Examples.quiet_world Examples.no_files in
  let argv :=
    [ "vina"; "--receptor=in/rec.pdbqt"; "--ligand=in/lig.pdbqt";
      "--center_x=1"; "--center_y=2"; "--center_z=3";
      "--size_x=10"; "--size_y=10"; "--size_z=10"; "--cpu=4";
      "--out=out/vina_rec_lig_out.pdbqt"; "--log=out/vina_rec_lig.log" ] in
  let r := VinaRunner.run py_float Py.str_int program calc_score current_node_id
             Examples.prepared_data w in
  r.1 = Raise AttributeError
  /\ stderr r.2 = [DockingFailed argv; Message "out of memory"]
  /\ files r.2 "out/vina_rec_lig.log" = Some Examples.three_row_log
  /\ (VinaRunner.run_via py_float Py.str_int program calc_score current_node_id
        "parse_logfile" Examples.prepared_data w).1 = Raise ValueError.
Proof. repeat split; reflexivity. Qed.

(** ** Text and paths *)

Lemma str_app_cons (c : ascii) (s t : string) :
  String c s +:+ t = String c (s +:+ t).
Proof. reflexivity. Qed.

Lemma str_app_nil_r (s : string) : s +:+ "" = s.
Proof.
  induction s as [|c s IH]; [reflexivity|]. now rewrite str_app_cons, IH.
Qed.

Lemma str_app_assoc (a b c : string) : (a +:+ b) +:+ c = a +:+ (b +:+ c).
Proof.
  induction a as [|x a IH]; [reflexivity|]. now rewrite !str_app_cons, IH.
Qed.

Lemma str_length_app (a b : string) :
  String.length (a +:+ b) = (String.length a + String.length b)%nat.
Proof.
  induction a as [|x a IH]; [reflexivity|].
  rewrite str_app_cons. cbn [String.length]. now rewrite IH.
Qed.

Lemma has_slash_app (a b : string) :
  Pathlib.has_slash (a +:+ b) = Pathlib.has_slash a || Pathlib.has_slash b.
Proof.
  induction a as [|x a IH]; [reflexivity|].
  rewrite str_app_cons. cbn [Pathlib.has_slash]. rewrite IH.
  now rewrite orb_assoc.
Qed.

Lemma split_slash_from_no_slash (cur s : string) :
  Pathlib.has_slash s = false ->
  Pathlib.split_slash_from cur s = [cur +:+ s].
Proof.
  revert cur. induction s as [|c s IH]; intros cur Hs.
  - cbn [Pathlib.split_slash_from]. now rewrite str_app_nil_r.
  - cbn in Hs. apply orb_false_iff in Hs as [Hc Hs].
    cbn [Pathlib.split_slash_from]. rewrite Hc. rewrite IH by assumption.
    now rewrite str_app_assoc.
Qed.

(** A file name without separator is a path of one component. *)
Lemma of_string_file_name (s : string) :
  Pathlib.has_slash s = false -> s <> "" -> s <> "." ->
  Pathlib.of_string s = Pathlib.mk_path "" [s].
Proof.
  intros Hs He Hd. unfold Pathlib.of_string.
  rewrite split_slash_from_no_slash by assumption.
  change ("" +:+ s) with s. cbn [List.filter].
  unfold Pathlib.keep_component.
  apply String.eqb_neq in He, Hd. rewrite He, Hd. cbn [negb andb].
  f_equal. destruct s as [|c s]; [reflexivity|].
  cbn in Hs. apply orb_false_iff in Hs as [Hc _].
  apply Ascii.eqb_neq in Hc.
  unfold Pathlib.root_of.
  destruct c as [[] [] [] [] [] [] [] []]; try reflexivity. now contradict Hc.
Qed.

Lemma join_file_name (p : Pathlib.Path) (s : string) :
  Pathlib.has_slash s = false -> s <> "" -> s <> "." ->
  Pathlib.join p s = Pathlib.mk_path (Pathlib.root p) (Pathlib.parts p ++ [s]).
Proof.
  intros. unfold Pathlib.join. now rewrite of_string_file_name.
Qed.

Lemma out_file_is_file_name (software : Software) (name : string) :
  Pathlib.has_slash name = false ->
  Pathlib.has_slash (VinaRunner.out_file software name) = false
  /\ VinaRunner.out_file software name <> ""
  /\ VinaRunner.out_file software name <> ".".
Proof.
  intros Hn. unfold VinaRunner.out_file. repeat split.
  - rewrite !has_slash_app, Hn. now destruct software.
  - now destruct software.
  - now destruct software.
Qed.

Lemma log_file_is_file_name (software : Software) (name : string) :
  Pathlib.has_slash name = false ->
  Pathlib.has_slash (VinaRunner.log_file software name) = false
  /\ VinaRunner.log_file software name <> ""
  /\ VinaRunner.log_file software name <> ".".
Proof.
  intros Hn. unfold VinaRunner.log_file. repeat split.
  - rewrite !has_slash_app, Hn. now destruct software.
  - now destruct software.
  - now destruct software.
Qed.

(** ** The invocation builder *)

(** C6 as stated fails on the output file: the claim names it
    [<engine>_<name>_out], the code [<engine>_<name>_out.pdbqt]. *)
Lemma build_argv_out_file_has_extension :
  exists argv out log,
    VinaRunner.build_argv Py.str_int (Pathlib.PStr "in/lig.pdbqt")
      (Pathlib.PStr "in/rec.pdbqt") VINA (1, 2, 3) (10, 10, 10) 4 None
      (Pathlib.of_string "out") None
    = Return (argv, out, log)
    /\ Pathlib.name out = "vina_rec_lig_out.pdbqt"
    /\ Pathlib.name out <> "vina_rec_lig_out"
    /\ out <> Pathlib.join (Pathlib.of_string "out") "vina_rec_lig_out".
Proof.
  eexists _, _, _. split; [reflexivity|].
  split; [reflexivity|]. split; discriminate.
Qed.

(** C6 (amended).  [build_argv] is a function of its arguments alone: it
    acts on no world and runs nothing.  With [nm] the given name, or
    [<receptor_stem>_<ligand_stem>] when the name is absent or empty, the
    output file is [<engine>_<nm>_out.pdbqt] and the log file
    [<engine>_<nm>.log], both joined to the output directory (and lying
    directly in it when [nm] holds no separator); the argument vector is
    the engine, the receptor and ligand flags, the three centre and three
    size flags, the cpu flag, the out and log flags, then the caller's
    extra flags unchanged. *)
Theorem build_argv_names_and_flags
    {num : Type} (fmt_num : num -> string)
    (ligand receptor : Pathlib.pathlike) (software : Software)
    (center size : num * num * num) (ncpu : Z) (name : option string)
    (path : Pathlib.Path) (extra : option (list string)) (nm : string) :
  VinaRunner.resolve_name name receptor ligand = Return nm ->
  let out := Pathlib.join path (Software_value software +:+ "_" +:+ nm +:+ "_out.pdbqt") in
  let log := Pathlib.join path (Software_value software +:+ "_" +:+ nm +:+ ".log") in
  VinaRunner.build_argv fmt_num ligand receptor software center size ncpu
    name path extra
  = Return ([ Software_value software;
              "--receptor=" +:+ Pathlib.fmt receptor;
              "--ligand=" +:+ Pathlib.fmt ligand;
              "--center_x=" +:+ fmt_num (center.1.1);
              "--center_y=" +:+ fmt_num (center.1.2);
              "--center_z=" +:+ fmt_num (center.2);
              "--size_x=" +:+ fmt_num (size.1.1);
              "--size_y=" +:+ fmt_num (size.1.2);
              "--size_z=" +:+ fmt_num (size.2);
              "--cpu=" +:+ Py.str_int ncpu;
              "--out=" +:+ Pathlib.str out;
              "--log=" +:+ Pathlib.str log ] ++ default [] extra,
            out, log)
  /\ (Pathlib.has_slash nm = false ->
      out = Pathlib.mk_path (Pathlib.root path)
              (Pathlib.parts path ++ [Software_value software +:+ "_" +:+ nm +:+ "_out.pdbqt"])
      /\ log = Pathlib.mk_path (Pathlib.root path)
                 (Pathlib.parts path ++ [Software_value software +:+ "_" +:+ nm +:+ ".log"]))
  /\ (forall c rest, name = Some (String c rest) -> nm = String c rest)
  /\ (forall r l, (name = None \/ name = Some "") ->
        receptor = Pathlib.PStr r -> ligand = Pathlib.PStr l ->
        nm = Pathlib.stem (Pathlib.of_string r) +:+ "_" +:+ Pathlib.stem (Pathlib.of_string l)).
Proof.
  intros Hname out log. repeat split.
  - unfold VinaRunner.build_argv. rewrite Hname. reflexivity.
  - destruct (out_file_is_file_name software nm H) as (? & ? & ?).
    now apply join_file_name.
  - destruct (log_file_is_file_name software nm H) as (? & ? & ?).
    now apply join_file_name.
  - intros c rest ->. cbn in Hname. congruence.
  - intros r l [-> | ->] -> ->; cbn in Hname; congruence.
Qed.

Lemma build_argv_names_and_flags_witness :
  VinaRunner.build_argv Py.str_int (Pathlib.PStr "in/lig.pdbqt")
    (Pathlib.PStr "in/rec.pdbqt") SMINA (1, 2, 3) (10, 10, 10) 4 None
    (Pathlib.of_string "/scratch/out") (Some ["--exhaustiveness=16"])
  = Return ([ "smina"; "--receptor=in/rec.pdbqt"; "--ligand=in/lig.pdbqt";
              "--center_x=1"; "--center_y=2"; "--center_z=3";
              "--size_x=10"; "--size_y=10"; "--size_z=10"; "--cpu=4";
              "--out=/scratch/out/smina_rec_lig_out.pdbqt";
              "--log=/scratch/out/smina_rec_lig.log";
              "--exhaustiveness=16" ],
            Pathlib.mk_path "/" ["scratch"; "out"; "smina_rec_lig_out.pdbqt"],
            Pathlib.mk_path "/" ["scratch"; "out"; "smina_rec_lig.log"]).
Proof.
  destruct (build_argv_names_and_flags Py.str_int (Pathlib.PStr "in/lig.pdbqt")
              (Pathlib.PStr "in/rec.pdbqt") SMINA (1, 2, 3) (10, 10, 10) 4 None
              (Pathlib.of_string "/scratch/out") (Some ["--exhaustiveness=16"])
              "rec_lig" eq_refl) as (Hargv & Hdir & _).
  destruct (Hdir eq_refl) as [Hout Hlog].
  rewrite Hargv, Hout, Hlog. reflexivity.
Defined.

(** ** The data class *)

(** C10.  Reading [score] before the calculation has run ([result] is
    [None]) raises [NotSimulatedError]; reading it when the result mapping
    has no ['score'] key raises [InvalidResultError]; a value is returned
    exactly when the mapping holds the key, and it is the value stored
    under it. *)
Theorem score_property_spec
    {float num : Type} (self : VinaCalculationData float num) :
  (result self = None ->
   exists msg, score self = Raise (NotSimulatedError msg))
  /\ (forall res, result self = Some res -> res !! "score" = None ->
      exists msg, score self = Raise (InvalidResultError msg))
  /\ (forall v, score self = Return v <->
      exists res, result self = Some res /\ res !! "score" = Some v).
Proof.
  unfold score. repeat split.
  - intros ->. eauto.
  - intros res -> ->. eauto.
  - destruct (result self) as [res|]; [|discriminate].
    destruct (res !! "score") as [x|] eqn:Hx; [|discriminate].
    intros [= ->]. eauto.
  - intros (res & -> & ->). reflexivity.
Qed.

Lemma score_property_spec_witness :
  (exists msg, score (@Examples.prepared_data Q) = Raise (NotSimulatedError msg))
  /\ (exists msg,
        score (set_result (@Examples.prepared_data Q) (<["name" := PyStr "lig"]> ∅))
        = Raise (InvalidResultError msg))
  /\ score (set_result (@Examples.prepared_data Q)
              (<["score" := PyFloat (Qmake (-81) 10)]> (<["name" := PyStr "lig"]> ∅)))
     = Return (PyFloat (Qmake (-81) 10))
  /\ score (set_result (@Examples.prepared_data Q) (<["score" := PyNone]> ∅))
     = Return PyNone.
Proof.
  split; [|split; [|split]].
  - apply (score_property_spec (@Examples.prepared_data Q)). reflexivity.
  - apply (score_property_spec
             (set_result (@Examples.prepared_data Q) (<["name" := PyStr "lig"]> ∅))
          ) with (res := <["name" := PyStr "lig"]> ∅); reflexivity.
  - apply (score_property_spec
             (set_result (@Examples.prepared_data Q)
                (<["score" := PyFloat (Qmake (-81) 10)]> (<["name" := PyStr "lig"]> ∅)))).
    eexists. split; reflexivity.
  - apply (score_property_spec
             (set_result (@Examples.prepared_data Q) (<["score" := PyNone]> ∅))).
    eexists. split; reflexivity.
Defined.

(** ** Decimal text *)

Lemma fixed_digits_length (w : nat) (n : Z) :
  String.length (Py.fixed_digits w n) = w.
Proof.
  revert n. induction w as [|w IH]; intros n; [reflexivity|].
  cbn [Py.fixed_digits]. rewrite str_length_app, IH. cbn. lia.
Qed.

Lemma zeros_snoc (k : nat) : Py.zeros k +:+ "0" = String "0" (Py.zeros k).
Proof.
  induction k as [|k IH]; [reflexivity|].
  cbn [Py.zeros]. now rewrite str_app_cons, IH.
Qed.

Lemma fixed_digits_zero (k : nat) : Py.fixed_digits k 0 = Py.zeros k.
Proof.
  induction k as [|k IH]; [reflexivity|].
  cbn [Py.fixed_digits Py.zeros]. change (0 / 10) with 0. rewrite IH.
  apply zeros_snoc.
Qed.

(** Padding a number of at most [d] digits with zeros gives its digits
    at the larger width. *)
Lemma zeros_fixed_digits (k d : nat) (n : Z) :
  0 <= n < 10 ^ Z.of_nat d ->
  Py.zeros k +:+ Py.fixed_digits d n = Py.fixed_digits (k + d) n.
Proof.
  revert n. induction d as [|d IH]; intros n Hn.
  - assert (n = 0) as -> by (cbn in Hn; lia).
    rewrite Nat.add_0_r, !fixed_digits_zero. apply str_app_nil_r.
  - rewrite Nat.add_succ_r. cbn [Py.fixed_digits].
    rewrite <- str_app_assoc. rewrite IH; [reflexivity|].
    rewrite Nat2Z.inj_succ, Z.pow_succ_r in Hn by lia.
    split; [apply Z.div_pos; lia|].
    apply Z.div_lt_upper_bound; lia.
Qed.

Lemma ndigits_from_spec (fuel : nat) (n : Z) :
  0 <= n < 10 * 2 ^ Z.of_nat fuel ->
  let d := Py.ndigits_from fuel n in
  (1 <= d)%nat /\ n < 10 ^ Z.of_nat d /\ (d = 1%nat \/ 10 ^ (Z.of_nat d - 1) <= n).
Proof.
  revert n. induction fuel as [|fuel IH]; intros n Hn; cbn [Py.ndigits_from].
  - cbn in *. lia.
  - destruct (Z.ltb_spec n 10) as [Hlt|Hge].
    + cbn. lia.
    + rewrite Nat2Z.inj_succ, Z.pow_succ_r in Hn by lia.
      assert (0 <= n / 10 < 10 * 2 ^ Z.of_nat fuel) as Hdiv.
      { split; [apply Z.div_pos; lia|]. apply Z.div_lt_upper_bound; lia. }
      specialize (IH _ Hdiv). cbv zeta in IH. destruct IH as (Hd1 & Hup & Hlow).
      set (d := Py.ndigits_from fuel (n / 10)) in *.
      assert (Hdm : n = 10 * (n / 10) + n mod 10) by (apply Z.div_mod; lia).
      assert (Hmod : 0 <= n mod 10 < 10) by (apply Z.mod_pos_bound; lia).
      split; [lia|]. split.
      * rewrite Nat2Z.inj_succ, Z.pow_succ_r by lia. lia.
      * right. replace (Z.of_nat (S d) - 1) with (Z.succ (Z.of_nat d - 1)) by lia.
        rewrite Z.pow_succ_r by lia.
        destruct Hlow as [Hone | Hlow].
        -- rewrite Hone. cbn. lia.
        -- lia.
Qed.

Lemma ndigits_spec (n : Z) :
  0 <= n ->
  (1 <= Py.ndigits n)%nat
  /\ n < 10 ^ Z.of_nat (Py.ndigits n)
  /\ (Py.ndigits n = 1%nat \/ 10 ^ (Z.of_nat (Py.ndigits n) - 1) <= n).
Proof.
  intros Hn. apply ndigits_from_spec. split; [assumption|].
  destruct (Z.eq_dec n 0) as [->|Hnz]; [cbn; lia|].
  rewrite Z2Nat.id by apply Z.log2_nonneg.
  assert (n < 2 ^ Z.succ (Z.log2 n)) by (apply Z.log2_spec; lia).
  rewrite Z.pow_succ_r in * by apply Z.log2_nonneg. lia.
Qed.

(** Zero padding of a number that fits the width: exactly [w] digits. *)
Lemma format_zero_pad_fits (w : nat) (n : Z) :
  (1 <= w)%nat ->
  0 <= n < 10 ^ Z.of_nat w ->
  Py.format_zero_pad (Z.of_nat w) n = Py.fixed_digits w n.
Proof.
  intros Hw Hn. unfold Py.format_zero_pad, Py.str_nonneg.
  destruct (Z.ltb_spec n 0) as [|_]; [lia|].
  rewrite Z.abs_eq by lia. rewrite fixed_digits_length.
  destruct (ndigits_spec n) as (Hd1 & Hup & Hlow); [lia|].
  set (d := Py.ndigits n) in *.
  assert (Hdw : (d <= w)%nat).
  { destruct Hlow as [->|Hlow].
    - assumption.
    - destruct (Nat.le_gt_cases d w) as [|Hgt]; [assumption|].
      assert (10 ^ Z.of_nat w <= 10 ^ (Z.of_nat d - 1)) by (apply Z.pow_le_mono_r; lia).
      lia. }
  change ("" +:+ ?x) with x. cbn [String.length].
  replace (Z.to_nat (Z.of_nat w - Z.of_nat 0 - Z.of_nat d)) with (w - d)%nat by lia.
  rewrite zeros_fixed_digits by lia.
  f_equal. lia.
Qed.

(** *** Order of decimal text *)

Lemma ascii_compare_refl (c : ascii) : Ascii.compare c c = Eq.
Proof. apply N.compare_refl. Qed.

Lemma compare_same_prefix (p a b : string) :
  String.compare (p +:+ a) (p +:+ b) = String.compare a b.
Proof.
  induction p as [|c p IH]; [reflexivity|].
  rewrite !str_app_cons. cbn [String.compare].
  now rewrite ascii_compare_refl.
Qed.

(** Two texts of equal length, each followed by one character. *)
Lemma compare_snoc (s1 s2 : string) (c1 c2 : ascii) :
  String.length s1 = String.length s2 ->
  String.compare (s1 +:+ String c1 "") (s2 +:+ String c2 "")
  = match String.compare s1 s2 with
    | Eq => Ascii.compare c1 c2
    | r => r
    end.
Proof.
  revert s2. induction s1 as [|x s1 IH]; intros [|y s2] Hlen; try discriminate.
  - change (String.compare (String c1 "") (String c2 "") = Ascii.compare c1 c2).
    cbn [String.compare]. now destruct (Ascii.compare c1 c2).
  - rewrite !str_app_cons. cbn [String.compare].
    destruct (Ascii.compare x y); try reflexivity.
    apply IH. now injection Hlen.
Qed.

Lemma N_of_digit_char (d : Z) :
  0 <= d < 10 -> N_of_ascii (Py.digit_char d) = (48 + Z.to_N d)%N.
Proof.
  intros Hd. unfold Py.digit_char. apply N_ascii_embedding. lia.
Qed.

Lemma compare_digit_char (x y : Z) :
  0 <= x < 10 -> 0 <= y < 10 ->
  Ascii.compare (Py.digit_char x) (Py.digit_char y) = Z.compare x y.
Proof.
  intros Hx Hy. unfold Ascii.compare. rewrite !N_of_digit_char by assumption.
  destruct (Z.compare_spec x y) as [->|Hlt|Hgt].
  - apply N.compare_refl.
  - apply N.compare_lt_iff. lia.
  - apply N.compare_gt_iff. lia.
Qed.

(** Texts of the same number of digits compare as the numbers do. *)
Lemma compare_fixed_digits (w : nat) (a b : Z) :
  0 <= a < 10 ^ Z.of_nat w -> 0 <= b < 10 ^ Z.of_nat w ->
  String.compare (Py.fixed_digits w a) (Py.fixed_digits w b) = Z.compare a b.
Proof.
  revert a b. induction w as [|w IH]; intros a b Ha Hb.
  - cbn in Ha, Hb. assert (a = 0) as -> by lia. assert (b = 0) as -> by lia.
    reflexivity.
  - rewrite Nat2Z.inj_succ, Z.pow_succ_r in Ha, Hb by lia.
    cbn [Py.fixed_digits].
    rewrite compare_snoc by now rewrite !fixed_digits_length.
    assert (Hda : a = 10 * (a / 10) + a mod 10) by (apply Z.div_mod; lia).
    assert (Hdb : b = 10 * (b / 10) + b mod 10) by (apply Z.div_mod; lia).
    assert (Hma : 0 <= a mod 10 < 10) by (apply Z.mod_pos_bound; lia).
    assert (Hmb : 0 <= b mod 10 < 10) by (apply Z.mod_pos_bound; lia).
    rewrite IH.
    + rewrite compare_digit_char by assumption.
      destruct (Z.compare_spec (a / 10) (b / 10)) as [Heq|Hlt|Hgt].
      * destruct (Z.compare_spec (a mod 10) (b mod 10)) as [Heq'|Hlt'|Hgt'];
          symmetry.
        -- apply Z.compare_eq_iff. lia.
        -- apply Z.compare_lt_iff. lia.
        -- apply Z.compare_gt_iff. lia.
      * symmetry. apply Z.compare_lt_iff. lia.
      * symmetry. apply Z.compare_gt_iff. lia.
    + split; [apply Z.div_pos; lia | apply Z.div_lt_upper_bound; lia].
    + split; [apply Z.div_pos; lia | apply Z.div_lt_upper_bound; lia].
Qed.

(** *** [ceil(log10(n))] *)

Lemma ceil_log10_from_spec (fuel : nat) (pow d n : Z) :
  0 < pow -> n <= pow * 2 ^ Z.of_nat fuel ->
  let c := Py.ceil_log10_from fuel pow d n in
  d <= c /\ n <= pow * 10 ^ (c - d).
Proof.
  revert pow d. induction fuel as [|fuel IH]; intros pow d Hpow Hn;
    cbn [Py.ceil_log10_from].
  - destruct (Z.leb_spec n pow).
    + rewrite Z.sub_diag. cbn. lia.
    + cbn in Hn. lia.
  - destruct (Z.leb_spec n pow).
    + rewrite Z.sub_diag. cbn. lia.
    + rewrite Nat2Z.inj_succ, Z.pow_succ_r in Hn by lia.
      assert (Hn' : n <= 10 * pow * 2 ^ Z.of_nat fuel).
      { assert (0 < 2 ^ Z.of_nat fuel) by (apply Z.pow_pos_nonneg; lia). nia. }
      specialize (IH (10 * pow) (d + 1) ltac:(lia) Hn'). cbv zeta in IH.
      destruct IH as [Hd Hle]. split; [lia|].
      replace (Py.ceil_log10_from fuel (10 * pow) (d + 1) n - d)
        with (Z.succ (Py.ceil_log10_from fuel (10 * pow) (d + 1) n - (d + 1))) by lia.
      rewrite Z.pow_succ_r by lia. lia.
Qed.

Lemma ceil_log10_spec (n : Z) :
  0 < n -> exists c, Py.ceil_log10 n = Return c /\ 0 <= c /\ n <= 10 ^ c.
Proof.
  intros Hn. unfold Py.ceil_log10.
  destruct (Z.leb_spec n 0); [lia|].
  eexists. split; [reflexivity|].
  pose proof (ceil_log10_from_spec (S (Z.to_nat (Z.log2 n))) 1 0 n) as Hspec.
  cbv zeta in Hspec. rewrite Z.sub_0_r in Hspec.
  assert (Hfuel : n <= 1 * 2 ^ Z.of_nat (S (Z.to_nat (Z.log2 n)))).
  { rewrite Nat2Z.inj_succ, Z2Nat.id by apply Z.log2_nonneg.
    assert (n < 2 ^ Z.succ (Z.log2 n)) by (apply Z.log2_spec; lia). lia. }
  destruct (Hspec ltac:(lia) Hfuel) as [H0 Hle]. split; [assumption|lia].
Qed.

Lemma ceil_log10_domain (n : Z) : n <= 0 -> Py.ceil_log10 n = Raise ValueError.
Proof.
  intros Hn. unfold Py.ceil_log10. destruct (Z.leb_spec n 0); [reflexivity|lia].
Qed.

(** ** Ligand names *)

(** C8 as stated fails for a negative offset: ten untitled molecules
    numbered from -5 get the width 2, and the names of the first two,
    [ligand_-5] and [ligand_-4], sort in the order opposite to their
    indices. *)
Lemma negative_offset_breaks_name_order :
  VinaRunner.name_width 10 (-5) = Return 2
  /\ VinaRunner.ligand_name Examples.toolkit_title 2 (-5) 0 "" = "ligand_-5"
  /\ VinaRunner.ligand_name Examples.toolkit_title 2 (-5) 1 "" = "ligand_-4"
  /\ String.compare
       (VinaRunner.ligand_name Examples.toolkit_title 2 (-5) 0 "")
       (VinaRunner.ligand_name Examples.toolkit_title 2 (-5) 1 "") = Gt
  /\ Nat.compare 0 1 = Lt.
Proof. repeat split. Qed.

Section NameFacts.
Context {mol : Type} (title : mol -> string).

Lemma ligand_name_titled (width offset : Z) (i : nat) (m : mol) :
  title m <> "" -> VinaRunner.ligand_name title width offset i m = title m.
Proof.
  intros Ht. unfold VinaRunner.ligand_name. now destruct (title m).
Qed.

Lemma ligand_name_untitled (width offset : Z) (i : nat) (m : mol) :
  title m = "" ->
  VinaRunner.ligand_name title width offset i m
  = "ligand_" +:+ Py.format_zero_pad width (Z.of_nat i + offset).
Proof. intros Ht. unfold VinaRunner.ligand_name. now rewrite Ht. Qed.

(** The width is defined as soon as there is something to number from a
    non-negative offset, and every index fits it. *)
Lemma name_width_fits (n_mols : nat) (offset : Z) :
  0 <= offset -> (0 < n_mols)%nat ->
  exists width : nat,
    VinaRunner.name_width n_mols offset = Return (Z.of_nat width)
    /\ (1 <= width)%nat
    /\ Z.of_nat n_mols + offset <= 10 ^ Z.of_nat width.
Proof.
  intros Hoff Hn. unfold VinaRunner.name_width.
  destruct (ceil_log10_spec (Z.of_nat n_mols + offset)) as (c & -> & Hc & Hle); [lia|].
  exists (S (Z.to_nat c)). cbn [obind]. repeat split.
  - f_equal. lia.
  - lia.
  - rewrite Nat2Z.inj_succ, Z2Nat.id, Z.pow_succ_r by lia.
    assert (0 < 10 ^ c) by (apply Z.pow_pos_nonneg; lia). lia.
Qed.

Lemma compare_shifted (i j : nat) (offset : Z) :
  Z.compare (Z.of_nat i + offset) (Z.of_nat j + offset) = Nat.compare i j.
Proof.
  destruct (Nat.compare_spec i j).
  - apply Z.compare_eq_iff. lia.
  - apply Z.compare_lt_iff. lia.
  - apply Z.compare_gt_iff. lia.
Qed.

End NameFacts.

Section FileFacts.
Context {mol : Type}.
Context (readfile : string -> string -> outcome (list mol)).
Context (addh calccharges : mol -> outcome mol).
Context (title write_smi : mol -> string).
Context (write_pdbqt : mol -> string -> filesystem -> outcome filesystem).

(** When the loop ends normally it has named every molecule by
    [ligand_name], in order. *)
Lemma convert_from_paths (path : Pathlib.Path) (width offset : Z)
    (mols : list mol) (i : nat) (smis pdbqts : list string) (w w' : world)
    (r : list string * list string) :
  VinaRunner.convert_from addh calccharges title write_smi write_pdbqt
    path width offset i mols smis pdbqts w = (Return r, w') ->
  r.1 = smis ++ map write_smi mols
  /\ r.2 = pdbqts ++ imap (fun j => VinaRunner.pdbqt_path title path width offset (i + j)) mols.
Proof.
  revert i smis pdbqts w.
  induction mols as [|m rest IH]; intros i smis pdbqts w Hrun.
  - cbn in Hrun. injection Hrun as <- _. cbn. now rewrite !app_nil_r.
  - cbn [VinaRunner.convert_from] in Hrun.
    unfold bind, lift, VinaRunner.mol_write in Hrun.
    destruct (addh m) as [m1|]; [|discriminate].
    destruct (calccharges m1) as [m2|]; [|discriminate].
    destruct (write_pdbqt m2 _ (files w)) as [fs'|]; [|discriminate].
    apply IH in Hrun as [H1 H2]. split.
    + rewrite H1, <- app_assoc. reflexivity.
    + rewrite H2, <- app_assoc. cbn [imap app]. f_equal.
      unfold VinaRunner.pdbqt_path at 2. rewrite Nat.add_0_r. f_equal.
      apply imap_ext. intros j x _. cbn. f_equal. lia.
Qed.

(** With a toolkit whose calls succeed the loop ends normally. *)
Lemma convert_from_returns (path : Pathlib.Path) (width offset : Z)
    (mols : list mol) (i : nat) (smis pdbqts : list string) (w : world) :
  (forall m, returns (addh m) = true) ->
  (forall m, returns (calccharges m) = true) ->
  (forall m p fs, returns (write_pdbqt m p fs) = true) ->
  returns (VinaRunner.convert_from addh calccharges title write_smi write_pdbqt
             path width offset i mols smis pdbqts w).1 = true.
Proof.
  intros Ha Hc Hw. revert i smis pdbqts w.
  induction mols as [|m rest IH]; intros i smis pdbqts w; [reflexivity|].
  cbn [VinaRunner.convert_from]. unfold bind, lift, VinaRunner.mol_write.
  specialize (Ha m). destruct (addh m) as [m1|]; [|discriminate].
  specialize (Hc m1). destruct (calccharges m1) as [m2|]; [|discriminate].
  match goal with
  | |- context [write_pdbqt m2 ?p ?fs] =>
      specialize (Hw m2 p fs); destruct (write_pdbqt m2 p fs); [|discriminate]
  end.
  apply IH.
Qed.

(** With a toolkit whose calls succeed, at least one molecule and a
    non-negative offset, [prepare_from_file] returns. *)
Lemma prepare_from_file_returns
    (filename path : string) (offset : Z) (w : world) (m0 : mol) (rest : list mol) :
  0 <= offset ->
  readfile (Py.strip_dots (Pathlib.suffix (Pathlib.of_string filename))) filename
  = Return (m0 :: rest) ->
  (forall m, returns (addh m) = true) ->
  (forall m, returns (calccharges m) = true) ->
  (forall m p fs, returns (write_pdbqt m p fs) = true) ->
  returns (VinaRunner.prepare_from_file readfile addh calccharges title write_smi
             write_pdbqt filename path offset w).1 = true.
Proof.
  intros Hoff Hread Ha Hc Hw. unfold VinaRunner.prepare_from_file.
  unfold bind at 1, lift at 1. rewrite Hread.
  destruct (name_width_fits (length (m0 :: rest)) offset) as (width & Hnw & _);
    [assumption | cbn; lia |].
  unfold bind at 1, lift at 1. rewrite Hnw.
  unfold bind at 1.
  pose proof (convert_from_returns (Pathlib.of_string path) (Z.of_nat width) offset
                (m0 :: rest) 0 [] [] w Ha Hc Hw) as Hloop.
  destruct (VinaRunner.convert_from _ _ _ _ _ _ _ _ _ _ _ _ w) as [[lists|] w1];
    [reflexivity | discriminate].
Qed.

(** C8 (amended).  For a non-negative offset and a file whose number of
    molecules plus the offset is at most [10^15], the range on which the
    floating-point logarithm of the code, rounded up, is the exact one:
    when [prepare_from_file] returns, it has computed one width from
    the number of molecules plus the offset, the file of the [i]-th
    molecule is named after its title or, for a molecule without title,
    [ligand_] followed by [i + offset] written with exactly that many
    digits, zero padded; and the names generated for two molecules
    without title compare, as text, the way their indices compare as
    numbers. *)
Theorem prepare_from_file_names
    (filename path : string) (offset : Z) (w w' : world)
    (mols : list mol) (res : list (string * string)) :
  0 <= offset ->
  readfile (Py.strip_dots (Pathlib.suffix (Pathlib.of_string filename))) filename
  = Return mols ->
  Z.of_nat (length mols) + offset <= Py.log10_exact_max ->
  VinaRunner.prepare_from_file readfile addh calccharges title write_smi
    write_pdbqt filename path offset w = (Return res, w') ->
  exists width : nat,
    VinaRunner.name_width (length mols) offset = Return (Z.of_nat width)
    /\ res = combine (map write_smi mols)
               (imap (VinaRunner.pdbqt_path title (Pathlib.of_string path) (Z.of_nat width) offset) mols)
    /\ (forall i m, mols !! i = Some m -> title m <> "" ->
          VinaRunner.ligand_name title (Z.of_nat width) offset i m = title m)
    /\ (forall i m, mols !! i = Some m -> title m = "" ->
          VinaRunner.ligand_name title (Z.of_nat width) offset i m
          = "ligand_" +:+ Py.fixed_digits width (Z.of_nat i + offset))
    /\ (forall i j mi mj,
          mols !! i = Some mi -> mols !! j = Some mj ->
          title mi = "" -> title mj = "" ->
          String.compare
            (VinaRunner.ligand_name title (Z.of_nat width) offset i mi)
            (VinaRunner.ligand_name title (Z.of_nat width) offset j mj)
          = Nat.compare i j).
Proof.
  intros Hoff Hread _ Hrun. unfold VinaRunner.prepare_from_file in Hrun.
  unfold bind at 1, lift at 1 in Hrun. rewrite Hread in Hrun.
  unfold bind at 1, lift at 1 in Hrun.
  destruct (VinaRunner.name_width (length mols) offset) as [wz|] eqn:Hwidth;
    [|discriminate].
  unfold bind at 1 in Hrun.
  destruct (VinaRunner.convert_from _ _ _ _ _ _ _ _ _ _ _ _ w) as [[lists|] w1]
    eqn:Hloop; [|discriminate].
  apply convert_from_paths in Hloop as [Hsmis Hpaths].
  cbn in Hsmis, Hpaths. unfold ret in Hrun. injection Hrun as <- _.
  rewrite Hsmis, Hpaths.
  (* the width, in both cases of the molecule list *)
  assert (Hw : exists width : nat,
             wz = Z.of_nat width /\ (1 <= width)%nat
             /\ (mols <> [] -> Z.of_nat (length mols) + offset <= 10 ^ Z.of_nat width)).
  { clear Hread. destruct mols as [|m0 rest].
    - unfold VinaRunner.name_width in Hwidth. cbn [length] in Hwidth.
      destruct (Z.leb_spec (Z.of_nat 0 + offset) 0) as [Hle|Hgt].
      + now rewrite ceil_log10_domain in Hwidth.
      + destruct (ceil_log10_spec (Z.of_nat 0 + offset)) as (c & Hc & Hc0 & _); [lia|].
        rewrite Hc in Hwidth. injection Hwidth as <-.
        exists (S (Z.to_nat c)). split; [lia|]. split; [lia|]. now intros [].
    - destruct (name_width_fits (length (m0 :: rest)) offset) as (width & Hnw & H1 & Hle);
        [lia | cbn; lia |].
      rewrite Hnw in Hwidth. injection Hwidth as <-.
      exists width. auto. }
  destruct Hw as (width & -> & Hw1 & Hfit). exists width.
  assert (Hidx : forall i m, mols !! i = Some m ->
                   0 <= Z.of_nat i + offset < 10 ^ Z.of_nat width).
  { intros i m Hi. apply lookup_lt_Some in Hi.
    assert (mols <> []) as Hne by (intros ->; cbn in Hi; lia).
    specialize (Hfit Hne). lia. }
  split; [reflexivity|]. split; [reflexivity|].
  split; [|split].
  - intros i m _ Ht. now apply ligand_name_titled.
  - intros i m Hi Ht. rewrite ligand_name_untitled by assumption.
    rewrite format_zero_pad_fits; eauto.
  - intros i j mi mj Hi Hj Hti Htj.
    rewrite !ligand_name_untitled by assumption.
    rewrite compare_same_prefix.
    rewrite !format_zero_pad_fits by eauto.
    rewrite compare_fixed_digits by eauto.
    apply compare_shifted.
Qed.

End FileFacts.

Lemma prepare_from_file_names_witness :
  let title := Examples.toolkit_title in
  let mols := [""; ""; ""] in
  let res := [ ("C", "in/ligand_008.pdbqt");
               ("C", "in/ligand_009.pdbqt");
               ("C", "in/ligand_010.pdbqt") ] in
  exists width : nat,
    VinaRunner.name_width (length mols) 8 = Return (Z.of_nat width)
    /\ res = combine (map Examples.toolkit_smiles mols)
               (imap (VinaRunner.pdbqt_path title (Pathlib.of_string "in") (Z.of_nat width) 8) mols)
    /\ (forall i m, mols !! i = Some m -> title m <> "" ->
          VinaRunner.ligand_name title (Z.of_nat width) 8 i m = title m)
    /\ (forall i m, mols !! i = Some m -> title m = "" ->
          VinaRunner.ligand_name title (Z.of_nat width) 8 i m
          = "ligand_" +:+ Py.fixed_digits width (Z.of_nat i + 8))
    /\ (forall i j mi mj,
          mols !! i = Some mi -> mols !! j = Some mj ->
          title mi = "" -> title mj = "" ->
          String.compare
            (VinaRunner.ligand_name title (Z.of_nat width) 8 i mi)
            (VinaRunner.ligand_name title (Z.of_nat width) 8 j mj)
          = Nat.compare i j).
Proof.
  cbv zeta.
  eapply (prepare_from_file_names (Examples.toolkit_readfile 3)
            Examples.toolkit_ok Examples.toolkit_ok Examples.toolkit_title
            Examples.toolkit_smiles Examples.toolkit_write
            "ligands.sdf" "in" 8 (Examples.quiet_world Examples.no_files)).
  - lia.
  - reflexivity.
  - vm_compute. discriminate.
  - reflexivity.
Defined.

(** ** Input preparation *)

(** C7 as stated fails for the ligand: when the 3D embedding of a ligand
    fails, [prepare_from_smi] prints nothing, writes the ligand file all
    the same and returns the calculation as prepared; and when the SMILES
    string cannot be read it ends in [UnboundLocalError], again without a
    word on standard error. *)
Lemma ligand_failure_is_not_reported :
  let v := @Examples.prepared_data Q in
  let w := Examples.quiet_world Examples.no_files in
  let r := VinaRunner.prepare_from_smi Examples.toolkit_readstring
             Examples.toolkit_make3D_fails Examples.toolkit_ok Examples.toolkit_ok
             Examples.toolkit_write v w in
  let r' := VinaRunner.prepare_from_smi Examples.toolkit_readstring_fails
              Examples.toolkit_ok Examples.toolkit_ok Examples.toolkit_ok
              Examples.toolkit_write v w in
  Examples.toolkit_make3D_fails "CCO" = Raise PybelError
  /\ r.1 = Return (set_prepared_ligand v (Pathlib.of_string "in/lig.pdbqt"))
  /\ stderr r.2 = []
  /\ files r.2 "in/lig.pdbqt" = Some ["REMARK CCO"]
  /\ r'.1 = Raise UnboundLocalError
  /\ stderr r'.2 = [].
Proof. repeat split. Qed.

(** [prepare_from_smi] never prints. *)
Lemma prepare_from_smi_silent
    {float num mol : Type} (readstring : string -> outcome mol)
    (make3D addh calccharges : mol -> outcome mol)
    (write_pdbqt : mol -> string -> filesystem -> outcome filesystem)
    (vinadata : VinaCalculationData float num) (w : world) :
  stderr (VinaRunner.prepare_from_smi readstring make3D addh calccharges
            write_pdbqt vinadata w).2 = stderr w.
Proof.
  unfold VinaRunner.prepare_from_smi.
  destruct (VinaRunner.try_make_mol _ _ _ _ _) as [m|]; [|reflexivity].
  unfold bind, VinaRunner.mol_write, ret.
  now destruct (write_pdbqt m _ (files w)).
Qed.

(** Once the SMILES string is read, the local [mol] is bound whatever
    the later calls do. *)
Lemma try_make_mol_bound
    {mol : Type} (readstring : string -> outcome mol)
    (make3D addh calccharges : mol -> outcome mol) (smiles : string) (m0 : mol) :
  readstring smiles = Return m0 ->
  exists m, VinaRunner.try_make_mol readstring make3D addh calccharges smiles = Some m.
Proof.
  intros Hr. unfold VinaRunner.try_make_mol. rewrite Hr.
  destruct (make3D m0) as [m1|]; [|eauto].
  destruct (addh m1) as [m2|]; [|eauto].
  destruct (calccharges m2) as [m3|]; eauto.
Qed.

(** C7 (amended).  A receptor conversion that fails, the
    [prepare_receptor] program exiting with a non-zero status, is printed
    to standard error and [prepare_receptor] returns [None] without
    raising.  A failure of [make3D], [addh] or [calccharges] on a ligand
    whose SMILES string was read is not reported: [prepare_from_smi]
    prints nothing in any case, and as long as the file can be written it
    returns the calculation with that file as its prepared ligand. *)
Theorem preparation_failure_handling
    {float num mol : Type}
    (sp_run : list string -> filesystem -> outcome (CompletedProcess * filesystem))
    (readstring : string -> outcome mol)
    (make3D addh calccharges : mol -> outcome mol)
    (write_pdbqt : mol -> string -> filesystem -> outcome filesystem)
    (vinadata : VinaCalculationData float num) (w : world) :
  (forall p code err fs',
     Pathlib.with_suffix (Pathlib.of_string (receptor vinadata)) ".pdbqt" = Return p ->
     sp_run [ "prepare_receptor"; "-r"; receptor vinadata; "-o";
              Pathlib.str (Pathlib.join (in_path vinadata) (Pathlib.name p)) ]
       (files w)
     = Return (mk_completed code err, fs') ->
     code <> 0 ->
     VinaRunner.prepare_receptor sp_run vinadata w
     = (Return None,
        mk_world fs' (stderr w ++ [FailedToConvert (receptor vinadata)])))
  /\ stderr (VinaRunner.prepare_from_smi readstring make3D addh calccharges
               write_pdbqt vinadata w).2 = stderr w
  /\ (forall m0,
        readstring (smi vinadata) = Return m0 ->
        (forall m p fs, returns (write_pdbqt m p fs) = true) ->
        (VinaRunner.prepare_from_smi readstring make3D addh calccharges
           write_pdbqt vinadata w).1
        = Return (set_prepared_ligand vinadata
                    (Pathlib.join (in_path vinadata) (name vinadata +:+ ".pdbqt")))).
Proof.
  split; [|split].
  - intros p code err fs' Hp Hrun Hcode.
    unfold VinaRunner.prepare_receptor.
    unfold bind at 1, lift at 1. rewrite Hp.
    unfold bind, try_except, VinaRunner.subprocess_run, lift, print_stderr, ret.
    rewrite Hrun. unfold check_returncode. cbn [returncode].
    destruct (Z.eqb_spec code 0) as [|_]; [contradiction|]. reflexivity.
  - apply prepare_from_smi_silent.
  - intros m0 Hread Hwrite. unfold VinaRunner.prepare_from_smi.
    destruct (try_make_mol_bound readstring make3D addh calccharges _ _ Hread)
      as [m ->].
    unfold bind, VinaRunner.mol_write, ret.
    match goal with
    | |- context [write_pdbqt m ?p ?fs] =>
        specialize (Hwrite m p fs); destruct (write_pdbqt m p fs); [|discriminate]
    end.
    reflexivity.
Qed.

Lemma preparation_failure_handling_witness :
  let v := @Examples.prepared_data Q in
  let w := Examples.quiet_world Examples.no_files in
  VinaRunner.prepare_receptor Examples.failing_program v w
  = (Return None, mk_world Examples.no_files [FailedToConvert "rec.pdb"])
  /\ (VinaRunner.prepare_from_smi Examples.toolkit_readstring
        Examples.toolkit_make3D_fails Examples.toolkit_ok Examples.toolkit_ok
        Examples.toolkit_write v w).1
     = Return (set_prepared_ligand v (Pathlib.of_string "in/lig.pdbqt")).
Proof.
  cbv zeta.
  pose proof (preparation_failure_handling Examples.failing_program
                Examples.toolkit_readstring Examples.toolkit_make3D_fails
                Examples.toolkit_ok Examples.toolkit_ok Examples.toolkit_write
                (@Examples.prepared_data Q)
                (Examples.quiet_world Examples.no_files)) as (Hrec & _ & Hlig).
  split.
  - apply (Hrec (Pathlib.of_string "rec.pdbqt") 1 "cannot parse" Examples.no_files);
      [reflexivity | reflexivity | discriminate].
  - apply (Hlig "CCO"); [reflexivity | reflexivity].
Defined.

(** ** Integers on the command line *)

Lemma digit_char_is_digit (d : Z) :
  0 <= d < 10 -> Py.is_digit (Py.digit_char d) = true.
Proof.
  intros Hd. unfold Py.is_digit. rewrite N_of_digit_char by assumption.
  apply andb_true_iff. split; apply N.leb_le; lia.
Qed.

Lemma digit_value_char (d : Z) :
  0 <= d < 10 -> Py.digit_value (Py.digit_char d) = d.
Proof.
  intros Hd. unfold Py.digit_value. rewrite N_of_digit_char by assumption. lia.
Qed.

Lemma is_digit_not_space (c : ascii) :
  Py.is_digit c = true -> Py.is_int_space c = false.
Proof.
  unfold Py.is_digit, Py.is_int_space. intros H.
  apply andb_true_iff in H as [H1 H2]. apply N.leb_le in H1, H2.
  apply orb_false_iff. split.
  - apply andb_false_iff. right. apply N.leb_gt. lia.
  - apply N.eqb_neq. lia.
Qed.

Lemma is_digit_not_sign (c : ascii) :
  Py.is_digit c = true -> Ascii.eqb c "-" = false /\ Ascii.eqb c "+" = false.
Proof.
  unfold Py.is_digit. intros H.
  apply andb_true_iff in H as [H1 H2]. apply N.leb_le in H1, H2.
  split; apply Ascii.eqb_neq; intros ->; cbn in H1; lia.
Qed.

Lemma all_digits_app (a b : string) :
  Py.all_digits (a +:+ b) = Py.all_digits a && Py.all_digits b.
Proof.
  induction a as [|c a IH]; [reflexivity|].
  rewrite str_app_cons. cbn [Py.all_digits]. now rewrite IH, andb_assoc.
Qed.

Lemma fixed_digits_all_digits (w : nat) (n : Z) :
  Py.all_digits (Py.fixed_digits w n) = true.
Proof.
  revert n. induction w as [|w IH]; intros n; [reflexivity|].
  cbn [Py.fixed_digits]. rewrite all_digits_app, IH. cbn [Py.all_digits andb].
  rewrite digit_char_is_digit; [reflexivity|].
  apply Z.mod_pos_bound. lia.
Qed.

Lemma rstrip_all_digits (s : string) :
  Py.all_digits s = true -> Py.rstrip s = s.
Proof.
  induction s as [|c s IH]; [reflexivity|].
  cbn [Py.all_digits Py.rstrip]. intros H.
  apply andb_true_iff in H as [Hc Hs]. rewrite IH by assumption.
  destruct s; [|reflexivity].
  now rewrite is_digit_not_space.
Qed.

Lemma lstrip_all_digits (s : string) :
  Py.all_digits s = true -> Py.lstrip s = s.
Proof.
  destruct s as [|c s]; [reflexivity|].
  cbn [Py.all_digits Py.lstrip]. intros H.
  apply andb_true_iff in H as [Hc _]. now rewrite is_digit_not_space.
Qed.

(** Reading back the [w] digits of [n]. *)
Lemma read_digits_fixed (w : nat) (n acc : Z) (after_digit : bool) (rest : string) :
  0 <= n < 10 ^ Z.of_nat w ->
  Py.read_digits acc after_digit (Py.fixed_digits w n +:+ rest)
  = Py.read_digits (acc * 10 ^ Z.of_nat w + n)
      (match w with O => after_digit | S _ => true end) rest.
Proof.
  revert n rest. induction w as [|w IH]; intros n rest Hn.
  - cbn in Hn. assert (n = 0) as -> by lia.
    cbn [Py.fixed_digits]. change ("" +:+ rest) with rest.
    f_equal. cbn. lia.
  - rewrite Nat2Z.inj_succ, Z.pow_succ_r in * by lia.
    cbn [Py.fixed_digits]. rewrite str_app_assoc, str_app_cons.
    change ("" +:+ rest) with rest.
    assert (Hm : 0 <= n mod 10 < 10) by (apply Z.mod_pos_bound; lia).
    rewrite IH.
    + cbn [Py.read_digits]. rewrite digit_char_is_digit by assumption.
      rewrite digit_value_char by assumption.
      f_equal. pose proof (Z.div_mod n 10 ltac:(lia)). lia.
    + split; [apply Z.div_pos; lia | apply Z.div_lt_upper_bound; lia].
Qed.

Lemma read_str_nonneg (n : Z) :
  0 <= n -> Py.read_digits 0 false (Py.str_nonneg n) = Some n.
Proof.
  intros Hn. unfold Py.str_nonneg.
  destruct (ndigits_spec n Hn) as (Hd & Hup & _).
  rewrite <- (str_app_nil_r (Py.fixed_digits _ n)).
  rewrite read_digits_fixed by lia.
  destruct (Py.ndigits n); [lia|]. cbn [Py.read_digits]. f_equal; lia.
Qed.

(** The decimal text of a number is not empty and starts with a digit. *)
Lemma str_nonneg_head (n : Z) :
  exists c rest, Py.str_nonneg n = String c rest /\ Py.is_digit c = true.
Proof.
  pose proof (fixed_digits_all_digits (Py.ndigits n) n) as Hall.
  pose proof (fixed_digits_length (Py.ndigits n) n) as Hlen.
  unfold Py.str_nonneg.
  destruct (Py.fixed_digits (Py.ndigits n) n) as [|c rest] eqn:Hs.
  - cbn in Hlen. unfold Py.ndigits in Hlen.
    destruct (Z.to_nat (Z.log2 n)); cbn in Hlen; [discriminate|].
    destruct (n <? 10); discriminate.
  - cbn [Py.all_digits] in Hall. apply andb_true_iff in Hall as [Hc _]. eauto.
Qed.

(** [int] reads back what [str] writes, for every integer. *)
Lemma int_of_string_str_int (z : Z) : Py.int_of_string (Py.str_int z) = Return z.
Proof.
  unfold Py.int_of_string, Py.str_int.
  destruct (Z.ltb_spec z 0) as [Hneg|Hpos].
  - pose proof (fixed_digits_all_digits (Py.ndigits (- z)) (- z)) as Hall.
    fold (Py.str_nonneg (- z)) in Hall.
    change ("-" +:+ Py.str_nonneg (- z)) with (String "-" (Py.str_nonneg (- z))).
    cbn [Py.lstrip]. change (Py.is_int_space "-") with false. cbv iota.
    cbn [Py.rstrip]. rewrite rstrip_all_digits by assumption.
    destruct (str_nonneg_head (- z)) as (c & rest & Hs & Hc).
    rewrite Hs. rewrite <- Hs. change (Ascii.eqb "-" "-") with true. cbv iota.
    rewrite read_str_nonneg by lia. cbn. f_equal. lia.
  - pose proof (fixed_digits_all_digits (Py.ndigits z) z) as Hall.
    fold (Py.str_nonneg z) in Hall.
    rewrite lstrip_all_digits, rstrip_all_digits by assumption.
    destruct (str_nonneg_head z) as (c & rest & Hs & Hc).
    destruct (is_digit_not_sign c Hc) as [Hm Hp].
    rewrite Hs at 1. rewrite Hm, Hp.
    now rewrite read_str_nonneg.
Qed.

(** C9 as stated fails: under TOP_K a [k] of zero, a negative [k] and a
    missing [k] all pass the command line and the construction of the
    calculation data without any error. *)
Lemma top_k_accepts_invalid_k :
  Args.k_arg (Some "0") = Return (Some 0)
  /\ Args.k_arg (Some "-3") = Return (Some (-3))
  /\ Args.k_arg None = Return None
  /\ @VinaCalculationData_init Q Z Examples.shlex_words "CCO" "rec.pdb" VINA
       (1, 2, 3) (10, 10, 10) 1 None "lig" None (Pathlib.PStr "in")
       (Pathlib.PStr "out") TOP_K (Some 0) Pathlib.PNone Pathlib.PNone None
     = Return (mk_data "CCO" "rec.pdb" VINA (1, 2, 3) (10, 10, 10) 1 [] "lig"
                 None (Pathlib.of_string "in") (Pathlib.of_string "out")
                 TOP_K (Some 0) Pathlib.PNone Pathlib.PNone None)
  /\ @VinaCalculationData_init Q Z Examples.shlex_words "CCO" "rec.pdb" VINA
       (1, 2, 3) (10, 10, 10) 1 None "lig" None (Pathlib.PStr "in")
       (Pathlib.PStr "out") TOP_K None Pathlib.PNone Pathlib.PNone None
     = Return (mk_data "CCO" "rec.pdb" VINA (1, 2, 3) (10, 10, 10) 1 [] "lig"
                 None (Pathlib.of_string "in") (Pathlib.of_string "out")
                 TOP_K None Pathlib.PNone Pathlib.PNone None).
Proof. repeat split. Qed.

(** C9 (amended).  Nothing checks [k] when a calculation is configured.
    The [-k] option is converted by [int] alone: every integer written on
    the command line is stored, zero and the negative ones included, and
    a missing option is stored as absent.  Constructing the calculation
    data succeeds or fails regardless of the score mode and of [k], and
    stores both as given.  Only [positive_int], the converter of
    [--repeats], rejects the values that are not positive. *)
Theorem k_is_not_validated
    {float num : Type} (shlex_split : string -> outcome (list string))
    (smi receptor : string) (software : Software)
    (center size : num * num * num) (ncpu : Z) (extra : option string)
    (name : string) (input_file : option string)
    (in_path out_path : Pathlib.pathlike)
    (mode : ScoreMode) (kk : option Z)
    (prepared_ligand prepared_receptor : Pathlib.pathlike)
    (result : option (gmap string (pyval float))) :
  (forall z, Args.k_arg (Some (Py.str_int z)) = Return (Some z))
  /\ Args.k_arg None = Return None
  /\ (forall z, Args.repeats_arg (Some (Py.str_int z))
                = if 0 <? z then Return (Some z)
                  else Raise (ArgumentTypeError
                                ("Value must be greater than 0! got: " +:+ Py.str_int z)))
  /\ (forall text z, Args.positive_int text = Return z -> 0 < z)
  /\ returns (VinaCalculationData_init shlex_split smi receptor software center
                size ncpu extra name input_file in_path out_path mode kk
                prepared_ligand prepared_receptor result)
     = returns (VinaCalculationData_init shlex_split smi receptor software center
                  size ncpu extra name input_file in_path out_path BEST (Some 1)
                  prepared_ligand prepared_receptor result)
  /\ (forall v : VinaCalculationData float num,
        VinaCalculationData_init shlex_split smi receptor software center
          size ncpu extra name input_file in_path out_path mode kk
          prepared_ligand prepared_receptor result = Return v ->
        score_mode v = mode /\ k v = kk).
Proof.
  repeat split.
  - intros z. unfold Args.k_arg, Args.option_value, Args.k_type.
    now rewrite int_of_string_str_int.
  - intros z. unfold Args.repeats_arg, Args.option_value, Args.repeats_type,
      Args.positive_int.
    rewrite int_of_string_str_int. cbn [obind].
    destruct (Z.leb_spec z 0), (Z.ltb_spec 0 z); try lia; reflexivity.
  - intros text z. unfold Args.positive_int.
    destruct (Py.int_of_string text) as [val|]; [|discriminate]. cbn [obind].
    destruct (Z.leb_spec val 0); [discriminate|]. intros [= <-]. assumption.
  - unfold VinaCalculationData_init.
    destruct (match extra with Some (String c rest) => _ | _ => _ end); [|reflexivity].
    cbn [obind]. destruct (Pathlib.Path_ in_path); [|reflexivity].
    cbn [obind]. now destruct (Pathlib.Path_ out_path).
  - unfold VinaCalculationData_init in H.
    destruct (match extra with Some (String c rest) => _ | _ => _ end); [|discriminate].
    cbn [obind] in H. destruct (Pathlib.Path_ in_path); [|discriminate].
    cbn [obind] in H. destruct (Pathlib.Path_ out_path); [|discriminate].
    now injection H as <-.
  - unfold VinaCalculationData_init in H.
    destruct (match extra with Some (String c rest) => _ | _ => _ end); [|discriminate].
    cbn [obind] in H. destruct (Pathlib.Path_ in_path); [|discriminate].
    cbn [obind] in H. destruct (Pathlib.Path_ out_path); [|discriminate].
    now injection H as <-.
Qed.

Lemma k_is_not_validated_witness :
  Args.k_arg (Some (Py.str_int (-3))) = Return (Some (-3))
  /\ Args.repeats_arg (Some (Py.str_int (-3)))
     = Raise (ArgumentTypeError "Value must be greater than 0! got: -3")
  /\ 0 < 7
  /\ score_mode (mk_data (float := Q) (num := Z) "CCO" "rec.pdb" VINA (1, 2, 3)
                   (10, 10, 10) 1 [] "lig" None (Pathlib.of_string "in")
                   (Pathlib.of_string "out") TOP_K (Some (-3))
                   Pathlib.PNone Pathlib.PNone None) = TOP_K
  /\ k (mk_data (float := Q) (num := Z) "CCO" "rec.pdb" VINA (1, 2, 3)
          (10, 10, 10) 1 [] "lig" None (Pathlib.of_string "in")
          (Pathlib.of_string "out") TOP_K (Some (-3))
          Pathlib.PNone Pathlib.PNone None) = Some (-3).
Proof.
  pose proof (@k_is_not_validated Q Z Examples.shlex_words "CCO" "rec.pdb" VINA
                (1, 2, 3) (10, 10, 10) 1 None "lig" None (Pathlib.PStr "in")
                (Pathlib.PStr "out") TOP_K (Some (-3)) Pathlib.PNone Pathlib.PNone
                None) as (Hk & _ & Hrep & Hpos & _ & Hinit).
  split; [apply Hk|].
  split; [apply (Hrep (-3))|].
  split; [apply (Hpos " 7 " 7); reflexivity|].
  apply Hinit. reflexivity.
Defined.

(** * Further properties of the code *)

(** ** More on text and paths *)

Lemma split_slash_from_components (cur s : string) :
  Pathlib.has_slash cur = false ->
  Forall (fun c => Pathlib.has_slash c = false) (Pathlib.split_slash_from cur s).
Proof.
  revert cur. induction s as [|c s IH]; intros cur Hcur.
  - cbn [Pathlib.split_slash_from]. now constructor.
  - cbn [Pathlib.split_slash_from]. destruct (Ascii.eqb c "/") eqn:Hc.
    + constructor; [assumption|]. now apply IH.
    + apply IH. rewrite has_slash_app, Hcur. cbn [Pathlib.has_slash].
      now rewrite Hc.
Qed.

(** No component of a path holds a separator. *)
Lemma of_string_parts_no_slash (s : string) :
  Forall (fun c => Pathlib.has_slash c = false) (Pathlib.parts (Pathlib.of_string s)).
Proof.
  unfold Pathlib.of_string. cbn [Pathlib.parts].
  pose proof (split_slash_from_components "" s eq_refl) as Hall.
  induction Hall as [|x l Hx Hl IH]; cbn [List.filter]; [constructor|].
  destruct (Pathlib.keep_component x); [constructor|]; assumption.
Qed.

Lemma last_no_slash (l : list string) :
  Forall (fun c => Pathlib.has_slash c = false) l ->
  Pathlib.has_slash (List.last l "") = false.
Proof.
  induction 1 as [|x l Hx Hl IH]; [reflexivity|].
  destruct l; [exact Hx | exact IH].
Qed.

Lemma substring_no_slash (n m : nat) (s : string) :
  Pathlib.has_slash s = false -> Pathlib.has_slash (String.substring n m s) = false.
Proof.
  revert n m. induction s as [|c s IH]; intros n m Hs.
  - now destruct n, m.
  - cbn [Pathlib.has_slash] in Hs. apply orb_false_iff in Hs as [Hc Hs].
    destruct n as [|n]; destruct m as [|m]; cbn [String.substring Pathlib.has_slash];
      try reflexivity; try (now apply IH).
    rewrite Hc. now apply IH.
Qed.

Lemma stem_no_slash (s : string) :
  Pathlib.has_slash (Pathlib.stem (Pathlib.of_string s)) = false.
Proof.
  pose proof (last_no_slash _ (of_string_parts_no_slash s)) as Hname.
  unfold Pathlib.stem. fold (Pathlib.name (Pathlib.of_string s)) in Hname.
  destruct (Pathlib.suffix_start _); [now apply substring_no_slash | assumption].
Qed.

Lemma last_snoc {A} (l : list A) (x d : A) : List.last (l ++ [x]) d = x.
Proof.
  induction l as [|y l IH]; [reflexivity|].
  cbn [app]. destruct (l ++ [x]) eqn:E; [now destruct l|]. exact IH.
Qed.

(** A text with a suffix of six characters is a proper file name when it
    holds no separator. *)
Lemma suffixed_file_name (stem sfx : string) :
  Pathlib.has_slash stem = false -> Pathlib.has_slash sfx = false ->
  (2 <= String.length sfx)%nat ->
  Pathlib.has_slash (stem +:+ sfx) = false
  /\ stem +:+ sfx <> ""
  /\ stem +:+ sfx <> ".".
Proof.
  intros Hs Hx Hlen. split; [|split].
  - now rewrite has_slash_app, Hs, Hx.
  - intros E. apply (f_equal String.length) in E.
    rewrite str_length_app in E. cbn in E. lia.
  - intros E. apply (f_equal String.length) in E.
    rewrite str_length_app in E. cbn in E. lia.
Qed.

(** Where the converted receptor goes: into the input directory, under
    the receptor's own file name with [.pdbqt] for its suffix. *)
Lemma receptor_pdbqt_location (r : string) (dir : Pathlib.Path) :
  Pathlib.name (Pathlib.of_string r) <> "" ->
  exists p,
    Pathlib.with_suffix (Pathlib.of_string r) ".pdbqt" = Return p
    /\ Pathlib.join dir (Pathlib.name p)
       = Pathlib.mk_path (Pathlib.root dir)
           (Pathlib.parts dir ++ [Pathlib.stem (Pathlib.of_string r) +:+ ".pdbqt"]).
Proof.
  intros Hname. unfold Pathlib.with_suffix.
  apply String.eqb_neq in Hname. rewrite Hname.
  eexists. split; [reflexivity|].
  unfold Pathlib.name at 1. cbn [Pathlib.parts]. rewrite last_snoc.
  destruct (suffixed_file_name (Pathlib.stem (Pathlib.of_string r)) ".pdbqt")
    as (H1 & H2 & H3); [apply stem_no_slash | reflexivity | cbn; lia |].
  now apply join_file_name.
Qed.

(** ** The receptor and the runner *)

Section MoreRunnerFacts.
Context {float num : Type}.
Context (py_float : string -> option float) (fmt_num : num -> string).
Context (sp_run : list string -> filesystem -> outcome (CompletedProcess * filesystem)).
Context (calc_score : list float -> ScoreMode -> option Z -> outcome (option float)).
Context (current_node_id : string).

(** X1.  When the receptor has a file name and the conversion program
    exits with status 0, [prepare_receptor] prints nothing and returns
    the calculation with its prepared receptor set to the file
    [<receptor stem>.pdbqt] directly in the input directory, whatever
    directory the receptor itself lies in. *)
Theorem prepare_receptor_converts
    (vinadata : VinaCalculationData float num) (w : world)
    (err : string) (fs' : filesystem) :
  let target :=
    Pathlib.mk_path (Pathlib.root (in_path vinadata))
      (Pathlib.parts (in_path vinadata)
       ++ [Pathlib.stem (Pathlib.of_string (receptor vinadata)) +:+ ".pdbqt"]) in
  Pathlib.name (Pathlib.of_string (receptor vinadata)) <> "" ->
  sp_run ["prepare_receptor"; "-r"; receptor vinadata; "-o"; Pathlib.str target]
    (files w)
  = Return (mk_completed 0 err, fs') ->
  VinaRunner.prepare_receptor sp_run vinadata w
  = (Return (Some (set_prepared_receptor vinadata target)),
     mk_world fs' (stderr w)).
Proof.
  intros target Hname Hrun.
  destruct (receptor_pdbqt_location (receptor vinadata) (in_path vinadata) Hname)
    as (p & Hp & Hloc).
  unfold VinaRunner.prepare_receptor.
  unfold bind at 1, lift at 1. rewrite Hp, Hloc. fold target.
  unfold bind, try_except, VinaRunner.subprocess_run, lift, ret.
  now rewrite Hrun.
Qed.

(** X2.  [prepare_receptor] raises in two cases: a receptor path without
    file name raises [ValueError] before any program is run, and a
    program that cannot be started lets its error through; in both
    cases nothing is printed and the files are as before. *)
Theorem prepare_receptor_raises
    (vinadata : VinaCalculationData float num) (w : world) :
  (Pathlib.name (Pathlib.of_string (receptor vinadata)) = "" ->
   VinaRunner.prepare_receptor sp_run vinadata w = (Raise ValueError, w))
  /\ (forall p e,
        Pathlib.with_suffix (Pathlib.of_string (receptor vinadata)) ".pdbqt" = Return p ->
        sp_run [ "prepare_receptor"; "-r"; receptor vinadata; "-o";
                 Pathlib.str (Pathlib.join (in_path vinadata) (Pathlib.name p)) ]
          (files w) = Raise e ->
        is_SubprocessError e = false ->
        VinaRunner.prepare_receptor sp_run vinadata w = (Raise e, w)).
Proof.
  split.
  - intros Hname. unfold VinaRunner.prepare_receptor, Pathlib.with_suffix.
    rewrite Hname. reflexivity.
  - intros p e Hp Hrun He. unfold VinaRunner.prepare_receptor.
    unfold bind at 1, lift at 1. rewrite Hp.
    unfold bind, try_except, VinaRunner.subprocess_run, lift, ret.
    now rewrite Hrun, He.
Qed.

(** X3.  [prepare] never returns: after [prepare_receptor], whether it
    converted the receptor or reported a failure, the lookup of
    [VinaRunner.prepare_ligand] raises [AttributeError], the class
    defining no such method; what [prepare_receptor] printed and wrote
    stays. *)
Theorem prepare_never_returns
    (call_method : string -> option (VinaCalculationData float num)
                   -> M (option (VinaCalculationData float num)))
    (vinadata : VinaCalculationData float num) (w : world) :
  VinaRunner.prepare sp_run call_method vinadata w
  = match VinaRunner.prepare_receptor sp_run vinadata w with
    | (Return _, w') => (Raise AttributeError, w')
    | (Raise e, w') => (Raise e, w')
    end.
Proof.
  unfold VinaRunner.prepare. unfold bind at 1.
  destruct (VinaRunner.prepare_receptor sp_run vinadata w) as [[r|e] w'];
    reflexivity.
Qed.

(** X4.  [run] on a calculation whose ligand was not prepared raises
    [TypeError] at once: the docking program is not started, nothing is
    printed and no file changes. *)
Theorem run_without_prepared_ligand
    (vinadata : VinaCalculationData float num) (w : world) :
  prepared_ligand vinadata = Pathlib.PNone ->
  VinaRunner.run py_float fmt_num sp_run calc_score current_node_id vinadata w
  = (Raise TypeError, w).
Proof.
  intros Hl. unfold VinaRunner.run, VinaRunner.run_via.
  unfold bind at 1, lift at 1. now rewrite Hl.
Qed.



End MoreRunnerFacts.

Lemma prepare_receptor_converts_witness :
  VinaRunner.prepare_receptor Examples.quiet_program
    (@Examples.unprepared_data Q) (Examples.quiet_world Examples.no_files)
  = (Return (Some (set_prepared_receptor (@Examples.unprepared_data Q)
                     (Pathlib.of_string "in/rec.pdbqt"))),
     Examples.quiet_world Examples.no_files).
Proof.
  apply (prepare_receptor_converts Examples.quiet_program
           (@Examples.unprepared_data Q) (Examples.quiet_world Examples.no_files)
           "" Examples.no_files).
  - discriminate.
  - reflexivity.
Defined.

Lemma prepare_receptor_raises_witness :
  VinaRunner.prepare_receptor Examples.quiet_program
    (@Examples.nameless_receptor_data Q) (Examples.quiet_world Examples.no_files)
  = (Raise ValueError, Examples.quiet_world Examples.no_files)
  /\ VinaRunner.prepare_receptor Examples.missing_program
       (@Examples.unprepared_data Q) (Examples.quiet_world Examples.no_files)
     = (Raise OSError, Examples.quiet_world Examples.no_files).
Proof.
  split.
  - apply (prepare_receptor_raises Examples.quiet_program
             (@Examples.nameless_receptor_data Q)
             (Examples.quiet_world Examples.no_files)).
    reflexivity.
  - apply (prepare_receptor_raises Examples.missing_program
             (@Examples.unprepared_data Q)
             (Examples.quiet_world Examples.no_files))
      with (p := Pathlib.of_string "structures/rec.pdbqt");
      reflexivity.
Defined.

Lemma run_without_prepared_ligand_witness :
  VinaRunner.run (fun _ : string => @None Q) Py.str_int Examples.quiet_program
    (fun _ _ _ => Return None) "node" (@Examples.unprepared_data Q)
    (Examples.quiet_world Examples.no_files)
  = (Raise TypeError, Examples.quiet_world Examples.no_files).
Proof.
  apply (run_without_prepared_ligand (fun _ : string => @None Q) Py.str_int
           Examples.quiet_program (fun _ _ _ => Return None) "node"
           (@Examples.unprepared_data Q) (Examples.quiet_world Examples.no_files)).
  reflexivity.
Defined.


(** ** More on the invocation builder *)

(** X6.  [build_argv] returns exactly when it has a name to use: a
    non-empty name was given, or neither the receptor nor the ligand is
    [None]; otherwise it raises [TypeError], and it raises nothing
    else. *)
Theorem build_argv_returns_iff_named
    {num : Type} (fmt_num : num -> string)
    (ligand receptor : Pathlib.pathlike) (software : Software)
    (center size : num * num * num) (ncpu : Z) (name : option string)
    (path : Pathlib.Path) (extra : option (list string)) :
  let named :=
    match name, receptor, ligand with
    | Some (String _ _), _, _ => true
    | _, Pathlib.PNone, _ => false
    | _, _, Pathlib.PNone => false
    | _, _, _ => true
    end in
  match VinaRunner.build_argv fmt_num ligand receptor software center size ncpu
          name path extra with
  | Return (argv, _, _) =>
      named = true /\ length argv = (12 + length (default [] extra))%nat
  | Raise e => named = false /\ e = TypeError
  end.
Proof.
  unfold VinaRunner.build_argv, VinaRunner.resolve_name.
  destruct name as [[|c rest]|]; destruct receptor, ligand; cbn; auto.
Qed.

Lemma str_snoc_inj (s1 s2 : string) (c1 c2 : ascii) :
  s1 +:+ String c1 "" = s2 +:+ String c2 "" -> s1 = s2 /\ c1 = c2.
Proof.
  revert s2. induction s1 as [|x s1 IH]; intros [|y s2] H.
  - now injection H.
  - rewrite str_app_cons in H. injection H as _ H. now destruct s2.
  - rewrite str_app_cons in H. injection H as _ H. now destruct s1.
  - rewrite !str_app_cons in H. injection H as -> H.
    destruct (IH _ H) as [-> ->]. auto.
Qed.

Lemma out_file_not_log_file (sw sw' : Software) (nm nm' : string) :
  VinaRunner.out_file sw nm <> VinaRunner.log_file sw' nm'.
Proof.
  unfold VinaRunner.out_file, VinaRunner.log_file. intros H.
  change "_out.pdbqt" with ("_out.pdbq" +:+ "t") in H.
  change ".log" with (".lo" +:+ "g") in H.
  rewrite <- !str_app_assoc in H.
  apply str_snoc_inj in H as [_ H]. discriminate H.
Qed.

Lemma out_file_engine (sw sw' : Software) (nm : string) :
  VinaRunner.out_file sw nm = VinaRunner.out_file sw' nm -> sw = sw'.
Proof.
  unfold VinaRunner.out_file.
  destruct sw, sw'; intros H; try reflexivity; discriminate H.
Qed.

Lemma log_file_engine (sw sw' : Software) (nm : string) :
  VinaRunner.log_file sw nm = VinaRunner.log_file sw' nm -> sw = sw'.
Proof.
  unfold VinaRunner.log_file.
  destruct sw, sw'; intros H; try reflexivity; discriminate H.
Qed.

(** X7.  For names without separator the files of [build_argv] do not
    clash: the output file of one call is never the log file of another,
    and two calls with the same name and directory name the same output
    file, or the same log file, only for the same engine. *)
Theorem build_argv_files_do_not_clash
    {num : Type} (fmt_num : num -> string)
    (ligand receptor ligand' receptor' : Pathlib.pathlike)
    (sw sw' : Software) (center size center' size' : num * num * num)
    (ncpu ncpu' : Z) (nm nm' : string) (path : Pathlib.Path)
    (extra extra' : option (list string))
    (argv argv' : list string) (out log out' log' : Pathlib.Path) :
  nm <> "" -> nm' <> "" ->
  Pathlib.has_slash nm = false -> Pathlib.has_slash nm' = false ->
  VinaRunner.build_argv fmt_num ligand receptor sw center size ncpu
    (Some nm) path extra = Return (argv, out, log) ->
  VinaRunner.build_argv fmt_num ligand' receptor' sw' center' size' ncpu'
    (Some nm') path extra' = Return (argv', out', log') ->
  out <> log'
  /\ (nm = nm' -> out = out' -> sw = sw')
  /\ (nm = nm' -> log = log' -> sw = sw').
Proof.
  intros Hne Hne' Hs Hs' Hb Hb'.
  unfold VinaRunner.build_argv, VinaRunner.resolve_name in Hb, Hb'.
  destruct nm as [|c nm]; [contradiction|].
  destruct nm' as [|c' nm']; [contradiction|].
  cbn [obind] in Hb, Hb'. injection Hb as _ <- <-. injection Hb' as _ <- <-.
  fold (VinaRunner.out_file sw (String c nm)).
  fold (VinaRunner.log_file sw (String c nm)).
  fold (VinaRunner.out_file sw' (String c' nm')).
  fold (VinaRunner.log_file sw' (String c' nm')).
  destruct (out_file_is_file_name sw (String c nm) Hs) as (? & ? & ?).
  destruct (log_file_is_file_name sw (String c nm) Hs) as (? & ? & ?).
  destruct (out_file_is_file_name sw' (String c' nm') Hs') as (? & ? & ?).
  destruct (log_file_is_file_name sw' (String c' nm') Hs') as (? & ? & ?).
  rewrite !join_file_name by assumption.
  split; [|split].
  - intros [= E]. apply app_inv_head in E. injection E as E.
    now apply out_file_not_log_file in E.
  - intros [= -> ->] [= E]. apply app_inv_head in E. injection E as E.
    now apply out_file_engine in E.
  - intros [= -> ->] [= E]. apply app_inv_head in E. injection E as E.
    now apply log_file_engine in E.
Qed.

Lemma build_argv_files_do_not_clash_witness :
  Pathlib.mk_path "" ["out"; "vina_rec_lig_out.pdbqt"]
  <> Pathlib.mk_path "" ["out"; "smina_rec_lig.log"]
  /\ ("rec_lig" = "rec_lig" ->
      Pathlib.mk_path "" ["out"; "vina_rec_lig_out.pdbqt"]
      = Pathlib.mk_path "" ["out"; "vina_rec_lig_out.pdbqt"] -> VINA = VINA)
  /\ ("rec_lig" = "rec_lig" ->
      Pathlib.mk_path "" ["out"; "vina_rec_lig.log"]
      = Pathlib.mk_path "" ["out"; "vina_rec_lig.log"] -> VINA = VINA).
Proof.
  pose proof (build_argv_files_do_not_clash Py.str_int
                (Pathlib.PStr "in/lig.pdbqt") (Pathlib.PStr "in/rec.pdbqt")
                (Pathlib.PStr "in/lig.pdbqt") (Pathlib.PStr "in/rec.pdbqt")
                VINA SMINA (1, 2, 3) (10, 10, 10) (1, 2, 3) (10, 10, 10) 4 4
                "rec_lig" "rec_lig" (Pathlib.of_string "out") None None
                _ _ _ _ _ _
                ltac:(discriminate) ltac:(discriminate) eq_refl eq_refl
                eq_refl eq_refl) as (Hol & _).
  pose proof (build_argv_files_do_not_clash Py.str_int
                (Pathlib.PStr "in/lig.pdbqt") (Pathlib.PStr "in/rec.pdbqt")
                (Pathlib.PStr "in/lig.pdbqt") (Pathlib.PStr "in/rec.pdbqt")
                VINA VINA (1, 2, 3) (10, 10, 10) (1, 2, 3) (10, 10, 10) 4 4
                "rec_lig" "rec_lig" (Pathlib.of_string "out") None None
                _ _ _ _ _ _
                ltac:(discriminate) ltac:(discriminate) eq_refl eq_refl
                eq_refl eq_refl) as (_ & Hout & Hlog).
  split; [exact Hol|]. split; [exact Hout | exact Hlog].
Defined.

(** ** More on the preparation of ligands *)

Section MoreLigandFacts.
Context {float num mol : Type}.
Context (readstring : string -> outcome mol).
Context (readfile : string -> string -> outcome (list mol)).
Context (make3D addh calccharges : mol -> outcome mol).
Context (title write_smi : mol -> string).
Context (write_pdbqt : mol -> string -> filesystem -> outcome filesystem).

(** X8.  When the SMILES string cannot be read, [prepare_from_smi] ends
    in [UnboundLocalError] whatever the toolkit raised; it writes no
    file and prints nothing. *)
Theorem prepare_from_smi_unreadable_smiles
    (vinadata : VinaCalculationData float num) (w : world) (e : exn) :
  readstring (smi vinadata) = Raise e ->
  VinaRunner.prepare_from_smi readstring make3D addh calccharges write_pdbqt
    vinadata w
  = (Raise UnboundLocalError, w).
Proof.
  intros Hr. unfold VinaRunner.prepare_from_smi, VinaRunner.try_make_mol.
  now rewrite Hr.
Qed.

(** X9.  Once the SMILES string is read, the file
    [<in_path>/<name>.pdbqt] is written from the molecule as the last
    call that succeeded left it: the molecule as read when [make3D]
    fails, the embedded one when [addh] fails, and so on.  An error of
    the writing itself is not swallowed: it is raised, and the
    calculation is not returned. *)
Theorem prepare_from_smi_writes_last_state
    (vinadata : VinaCalculationData float num) (w : world) (m0 : mol) :
  readstring (smi vinadata) = Return m0 ->
  let written :=
    match make3D m0 with
    | Raise _ => m0
    | Return m1 =>
        match addh m1 with
        | Raise _ => m1
        | Return m2 =>
            match calccharges m2 with
            | Raise _ => m2
            | Return m3 => m3
            end
        end
    end in
  let pdbqt := Pathlib.join (in_path vinadata) (name vinadata +:+ ".pdbqt") in
  VinaRunner.prepare_from_smi readstring make3D addh calccharges write_pdbqt
    vinadata w
  = match write_pdbqt written (Pathlib.str pdbqt) (files w) with
    | Return fs' =>
        (Return (set_prepared_ligand vinadata pdbqt), mk_world fs' (stderr w))
    | Raise e => (Raise e, w)
    end.
Proof.
  intros Hr written pdbqt. subst written pdbqt.
  unfold VinaRunner.prepare_from_smi, VinaRunner.try_make_mol. rewrite Hr.
  destruct (make3D m0) as [m1|]; [destruct (addh m1) as [m2|];
    [destruct (calccharges m2) as [m3|]|]|];
    unfold bind, VinaRunner.mol_write, ret;
    match goal with
    | |- context [write_pdbqt ?m ?p ?fs] => now destruct (write_pdbqt m p fs)
    end.
Qed.

(** X10.  A file without molecules read with offset 0, and any file
    whose count of molecules plus the offset is not positive, makes
    [prepare_from_file] raise [ValueError] from the logarithm, before any
    molecule is converted: nothing is written. *)
Theorem prepare_from_file_nothing_to_number
    (filename path : string) (offset : Z) (w : world) (mols : list mol) :
  readfile (Py.strip_dots (Pathlib.suffix (Pathlib.of_string filename))) filename
  = Return mols ->
  Z.of_nat (length mols) + offset <= 0 ->
  VinaRunner.prepare_from_file readfile addh calccharges title write_smi
    write_pdbqt filename path offset w
  = (Raise ValueError, w).
Proof.
  intros Hread Hn. unfold VinaRunner.prepare_from_file.
  unfold bind at 1, lift at 1. rewrite Hread.
  unfold bind at 1, lift at 1. unfold VinaRunner.name_width.
  now rewrite ceil_log10_domain.
Qed.

(** What [prepare_from_file] returns when it returns. *)
Lemma prepare_from_file_result
    (filename path : string) (offset : Z) (w w' : world)
    (res : list (string * string)) :
  VinaRunner.prepare_from_file readfile addh calccharges title write_smi
    write_pdbqt filename path offset w = (Return res, w') ->
  exists mols width,
    readfile (Py.strip_dots (Pathlib.suffix (Pathlib.of_string filename))) filename
    = Return mols
    /\ VinaRunner.name_width (length mols) offset = Return width
    /\ res = combine (map write_smi mols)
               (imap (VinaRunner.pdbqt_path title (Pathlib.of_string path) width offset)
                  mols).
Proof.
  intros Hrun. unfold VinaRunner.prepare_from_file in Hrun.
  unfold bind at 1, lift at 1 in Hrun.
  destruct (readfile _ filename) as [mols|] eqn:Hread; [|discriminate].
  unfold bind at 1, lift at 1 in Hrun.
  destruct (VinaRunner.name_width (length mols) offset) as [width|] eqn:Hwidth;
    [|discriminate].
  unfold bind at 1 in Hrun.
  destruct (VinaRunner.convert_from _ _ _ _ _ _ _ _ _ _ _ _ w) as [[lists|] w1]
    eqn:Hloop; [|discriminate].
  apply convert_from_paths in Hloop as [Hsmis Hpaths].
  cbn in Hsmis, Hpaths. unfold ret in Hrun. injection Hrun as <- _.
  exists mols, width. rewrite Hsmis, Hpaths. auto.
Qed.

Lemma map_snd_combine {A B} (l : list A) (l' : list B) :
  length l = length l' -> map snd (combine l l') = l'.
Proof.
  revert l'. induction l as [|x l IH]; intros [|y l'] Hlen; try discriminate;
    [reflexivity|].
  cbn. f_equal. apply IH. now injection Hlen.
Qed.

Lemma map_fst_combine {A B} (l : list A) (l' : list B) :
  length l = length l' -> map fst (combine l l') = l.
Proof.
  revert l'. induction l as [|x l IH]; intros [|y l'] Hlen; try discriminate;
    [reflexivity|].
  cbn. f_equal. apply IH. now injection Hlen.
Qed.

(** The offset shifts the index. *)
Lemma pdbqt_path_shift (path : Pathlib.Path) (width offset : Z) (n i : nat) (m : mol) :
  VinaRunner.pdbqt_path title path width (offset + Z.of_nat n) i m
  = VinaRunner.pdbqt_path title path width offset (n + i) m.
Proof.
  unfold VinaRunner.pdbqt_path, VinaRunner.ligand_name.
  destruct (title m); [|reflexivity].
  replace (Z.of_nat i + (offset + Z.of_nat n)) with (Z.of_nat (n + i) + offset) by lia.
  reflexivity.
Qed.

(** X11.  The offset continues a numbering.  When a file holding the
    molecules [first ++ second] is prepared with offset [offset], and a
    file holding [second] alone with the offset raised by the number of
    molecules of [first], the second run gives its molecules the file
    paths they have in the first run, and the same SMILES strings. *)
Theorem prepare_from_file_continues_numbering
    (readfile' : string -> string -> outcome (list mol))
    (whole part path : string) (offset : Z) (first second : list mol)
    (w1 w1' w2 w2' : world) (res res' : list (string * string)) :
  readfile (Py.strip_dots (Pathlib.suffix (Pathlib.of_string whole))) whole
  = Return (first ++ second) ->
  readfile' (Py.strip_dots (Pathlib.suffix (Pathlib.of_string part))) part
  = Return second ->
  VinaRunner.prepare_from_file readfile addh calccharges title write_smi
    write_pdbqt whole path offset w1 = (Return res, w1') ->
  VinaRunner.prepare_from_file readfile' addh calccharges title write_smi
    write_pdbqt part path (offset + Z.of_nat (length first)) w2 = (Return res', w2') ->
  res' = drop (length first) res.
Proof.
  intros Hread Hread' Hrun Hrun'.
  apply prepare_from_file_result in Hrun as (mols & width & Hr & Hw & ->).
  rewrite Hread in Hr. injection Hr as <-.
  pose proof Hrun' as Hrun''. clear Hrun'.
  unfold VinaRunner.prepare_from_file in Hrun''.
  unfold bind at 1, lift at 1 in Hrun''. rewrite Hread' in Hrun''.
  unfold bind at 1, lift at 1 in Hrun''.
  assert (Hsame : VinaRunner.name_width (length second) (offset + Z.of_nat (length first))
                  = Return width).
  { rewrite <- Hw. unfold VinaRunner.name_width. rewrite length_app.
    do 2 f_equal. lia. }
  rewrite Hsame in Hrun''. unfold bind at 1 in Hrun''.
  destruct (VinaRunner.convert_from _ _ _ _ _ _ _ _ _ _ _ _ w2) as [[lists|] w3]
    eqn:Hloop; [|discriminate].
  apply convert_from_paths in Hloop as [Hsmis Hpaths].
  cbn in Hsmis, Hpaths. unfold ret in Hrun''. injection Hrun'' as <- _.
  rewrite Hsmis, Hpaths.
  rewrite map_app, imap_app.
  assert (Hsplit : forall (A B : Type) (a1 a2 : list A) (b1 b2 : list B),
             length a1 = length b1 ->
             combine (a1 ++ a2) (b1 ++ b2) = combine a1 b1 ++ combine a2 b2).
  { intros A B a1. induction a1 as [|x a1 IH]; intros a2 [|y b1] b2 Hlen;
      try discriminate; [reflexivity|].
    cbn. f_equal. apply IH. now injection Hlen. }
  rewrite Hsplit by now rewrite length_map, length_imap.
  rewrite drop_app_length'.
  - f_equal. apply imap_ext. intros i m _. cbn. apply pdbqt_path_shift.
  - rewrite length_combine, length_map, length_imap. lia.
Qed.

End MoreLigandFacts.

(** ** Distinct files for distinct molecules *)

Lemma str_app_inj_r (a b sfx : string) : a +:+ sfx = b +:+ sfx -> a = b.
Proof.
  revert b. induction a as [|x a IH]; intros [|y b] H.
  - reflexivity.
  - apply (f_equal String.length) in H.
    rewrite !str_length_app in H. cbn in H. lia.
  - apply (f_equal String.length) in H.
    rewrite !str_length_app in H. cbn in H. lia.
  - rewrite !str_app_cons in H. injection H as -> H. f_equal. now apply IH.
Qed.

Lemma string_compare_refl (s : string) : String.compare s s = Eq.
Proof.
  induction s as [|c s IH]; [reflexivity|].
  cbn [String.compare]. now rewrite ascii_compare_refl.
Qed.

Lemma all_digits_no_slash (s : string) :
  Py.all_digits s = true -> Pathlib.has_slash s = false.
Proof.
  induction s as [|c s IH]; [reflexivity|].
  cbn [Py.all_digits Pathlib.has_slash]. intros H.
  apply andb_true_iff in H as [Hc Hs]. rewrite IH by assumption.
  rewrite orb_false_r. apply Ascii.eqb_neq. intros ->. discriminate Hc.
Qed.

(** The text of a path with components ends with its last component. *)
Lemma str_last_component (r : string) (ps : list string) :
  exists pre, forall a, Pathlib.str (Pathlib.mk_path r (ps ++ [a])) = pre +:+ a.
Proof.
  assert (Hc : exists pre, forall a, String.concat "/" (ps ++ [a]) = pre +:+ a).
  { induction ps as [|x ps [pre IH]].
    - exists "". reflexivity.
    - exists (x +:+ "/" +:+ pre). intros a. specialize (IH a).
      cbn [app]. revert IH.
      destruct (ps ++ [a]) as [|y l] eqn:E; [now destruct ps|]. intros IH.
      change (String.concat "/" (x :: y :: l))
        with (x +:+ "/" +:+ String.concat "/" (y :: l)).
      rewrite IH. now rewrite !str_app_assoc. }
  destruct Hc as [pre Hc]. exists (r +:+ pre). intros a.
  unfold Pathlib.str. cbn [Pathlib.root Pathlib.parts].
  rewrite str_app_assoc, <- Hc.
  destruct r; [|reflexivity]. now destruct (ps ++ [a]) eqn:E; [destruct ps|].
Qed.

Section DistinctFiles.
Context {mol : Type} (title : mol -> string).

(** The names generated within one file compare as the indices do. *)
Lemma untitled_names_compare (width : nat) (offset : Z) (n i j : nat) (mi mj : mol) :
  (1 <= width)%nat -> 0 <= offset ->
  (i < n)%nat -> (j < n)%nat ->
  Z.of_nat n + offset <= 10 ^ Z.of_nat width ->
  title mi = "" -> title mj = "" ->
  String.compare (VinaRunner.ligand_name title (Z.of_nat width) offset i mi)
                 (VinaRunner.ligand_name title (Z.of_nat width) offset j mj)
  = Nat.compare i j.
Proof.
  intros Hw Hoff Hi Hj Hfit Hti Htj.
  rewrite !ligand_name_untitled by assumption.
  rewrite compare_same_prefix.
  rewrite !format_zero_pad_fits by lia.
  rewrite compare_fixed_digits by lia.
  apply compare_shifted.
Qed.

(** X12.  With a non-negative offset, two molecules without title at
    different places of one file are written to different PDBQT files,
    whatever the output directory. *)
Theorem untitled_molecules_get_distinct_files
    (path : Pathlib.Path) (mols : list mol) (offset width : Z)
    (i j : nat) (mi mj : mol) :
  0 <= offset ->
  VinaRunner.name_width (length mols) offset = Return width ->
  mols !! i = Some mi -> mols !! j = Some mj ->
  title mi = "" -> title mj = "" ->
  i <> j ->
  VinaRunner.pdbqt_path title path width offset i mi
  <> VinaRunner.pdbqt_path title path width offset j mj.
Proof.
  intros Hoff Hwidth Hi Hj Hti Htj Hij Heq.
  pose proof (lookup_lt_Some _ _ _ Hi) as Hilt.
  pose proof (lookup_lt_Some _ _ _ Hj) as Hjlt.
  destruct (name_width_fits (length mols) offset Hoff ltac:(lia))
    as (wn & Hnw & Hw1 & Hfit).
  rewrite Hnw in Hwidth. injection Hwidth as <-.
  pose proof (untitled_names_compare wn offset (length mols) i j mi mj
                Hw1 Hoff Hilt Hjlt Hfit Hti Htj) as Hcmp.
  assert (Hfile : forall k m, (k < length mols)%nat -> title m = "" ->
            let f := VinaRunner.ligand_name title (Z.of_nat wn) offset k m +:+ ".pdbqt" in
            Pathlib.has_slash f = false /\ f <> "" /\ f <> ".").
  { intros k m Hk Ht. apply suffixed_file_name; [|reflexivity|cbn; lia].
    rewrite ligand_name_untitled by assumption.
    rewrite format_zero_pad_fits by lia.
    rewrite has_slash_app. cbn [orb].
    change (Pathlib.has_slash "ligand_") with false. cbn [orb].
    apply all_digits_no_slash, fixed_digits_all_digits. }
  unfold VinaRunner.pdbqt_path in Heq.
  destruct (Hfile i mi Hilt Hti) as (? & ? & ?).
  destruct (Hfile j mj Hjlt Htj) as (? & ? & ?).
  rewrite !join_file_name in Heq by assumption.
  destruct (str_last_component (Pathlib.root path) (Pathlib.parts path)) as [pre Hpre].
  rewrite !Hpre in Heq.
  apply (inj (String.app pre)) in Heq. apply str_app_inj_r in Heq.
  rewrite Heq, string_compare_refl in Hcmp.
  symmetry in Hcmp. apply Nat.compare_eq in Hcmp. contradiction.
Qed.

End DistinctFiles.

Lemma untitled_molecules_get_distinct_files_witness :
  VinaRunner.pdbqt_path Examples.toolkit_title (Pathlib.of_string "in") 3 8 1 ""
  <> VinaRunner.pdbqt_path Examples.toolkit_title (Pathlib.of_string "in") 3 8 2 "".
Proof.
  apply (untitled_molecules_get_distinct_files Examples.toolkit_title
           (Pathlib.of_string "in") [""; ""; ""] 8 3 1 2 "" "");
    [lia | reflexivity | reflexivity | reflexivity | reflexivity | reflexivity
    | discriminate].
Defined.

Lemma prepare_from_smi_unreadable_smiles_witness :
  VinaRunner.prepare_from_smi Examples.toolkit_readstring_fails
    Examples.toolkit_ok Examples.toolkit_ok Examples.toolkit_ok
    Examples.toolkit_write (@Examples.unprepared_data Q)
    (Examples.quiet_world Examples.no_files)
  = (Raise UnboundLocalError, Examples.quiet_world Examples.no_files).
Proof.
  apply (prepare_from_smi_unreadable_smiles Examples.toolkit_readstring_fails
           Examples.toolkit_ok Examples.toolkit_ok Examples.toolkit_ok
           Examples.toolkit_write (@Examples.unprepared_data Q)
           (Examples.quiet_world Examples.no_files) PybelError).
  reflexivity.
Defined.

Lemma prepare_from_smi_writes_last_state_witness :
  (VinaRunner.prepare_from_smi Examples.toolkit_readstring
     Examples.toolkit_make3D_fails Examples.toolkit_ok Examples.toolkit_ok
     Examples.toolkit_write (@Examples.unprepared_data Q)
     (Examples.quiet_world Examples.no_files)).1
  = Return (set_prepared_ligand (@Examples.unprepared_data Q)
              (Pathlib.of_string "in/lig.pdbqt")).
Proof.
  rewrite (prepare_from_smi_writes_last_state Examples.toolkit_readstring
             Examples.toolkit_make3D_fails Examples.toolkit_ok Examples.toolkit_ok
             Examples.toolkit_write (@Examples.unprepared_data Q)
             (Examples.quiet_world Examples.no_files) "CCO" eq_refl).
  reflexivity.
Defined.

Lemma prepare_from_file_nothing_to_number_witness :
  VinaRunner.prepare_from_file (Examples.toolkit_readfile 0) Examples.toolkit_ok
    Examples.toolkit_ok Examples.toolkit_title Examples.toolkit_smiles
    Examples.toolkit_write "empty.sdf" "in" 0 (Examples.quiet_world Examples.no_files)
  = (Raise ValueError, Examples.quiet_world Examples.no_files).
Proof.
  apply (prepare_from_file_nothing_to_number (Examples.toolkit_readfile 0)
           Examples.toolkit_ok Examples.toolkit_ok Examples.toolkit_title
           Examples.toolkit_smiles Examples.toolkit_write "empty.sdf" "in" 0
           (Examples.quiet_world Examples.no_files) []).
  - reflexivity.
  - cbn. lia.
Defined.

Lemma prepare_from_file_continues_numbering_witness :
  [ ("C", "in/ligand_02.pdbqt"); ("C", "in/ligand_03.pdbqt") ]
  = drop (length [""; ""])
      [ ("C", "in/ligand_00.pdbqt"); ("C", "in/ligand_01.pdbqt");
        ("C", "in/ligand_02.pdbqt"); ("C", "in/ligand_03.pdbqt") ].
Proof.
  eapply (prepare_from_file_continues_numbering (Examples.toolkit_readfile 4)
            Examples.toolkit_ok Examples.toolkit_ok Examples.toolkit_title
            Examples.toolkit_smiles Examples.toolkit_write
            (Examples.toolkit_readfile 2) "all.sdf" "tail.sdf" "in" 0
            [""; ""] [""; ""]
            (Examples.quiet_world Examples.no_files) _
            (Examples.quiet_world Examples.no_files) _);
    reflexivity.
Defined.

(** ** More on the command line and the data classes *)

(** X13.  Whatever is written after [--repeats], the number of repeats
    that the parser stores is a positive integer: 1 when the option is
    absent, and otherwise the integer that [int] reads from the text,
    which [positive_int] lets through only when it is positive. *)
Theorem repeats_is_positive (given : option string) (stored : option Z) :
  Args.repeats_arg given = Return stored ->
  exists z, stored = Some z /\ 0 < z
            /\ match given with
               | None => z = 1
               | Some text => Py.int_of_string text = Return z
               end.
Proof.
  unfold Args.repeats_arg, Args.option_value, Args.repeats_type, Args.positive_int.
  destruct given as [text|].
  - destruct (Py.int_of_string text) as [val|]; [|discriminate]. cbn [obind].
    destruct (Z.leb_spec val 0); [discriminate|]. cbn [obind].
    intros [= <-]. exists val. auto.
  - intros [= <-]. exists 1. split; [reflexivity|]. split; [lia|reflexivity].
Qed.

Lemma repeats_is_positive_witness :
  exists z, Some 3 = Some z /\ 0 < z /\ Py.int_of_string " +3" = Return z.
Proof. exact (repeats_is_positive (Some " +3") (Some 3) eq_refl). Defined.

Section MetadataFacts.
Context {float SphereMode pyobj : Type}.
Context (from_str : pyobj -> outcome SphereMode).
Context (base_getattr : string -> option pyobj).

(** X14.  [DOCKMetadata.__post_init__] reads [self.sphere_more], which
    is not a field of the class ([sphere_mode] is).  When the base class
    provides no attribute of that name, a sphere mode given as text
    makes the construction raise [AttributeError], while a mode given as
    a member of the enumeration is kept as it is; and in no case does the
    text given reach [from_str]: two texts give the same outcome. *)
Theorem post_init_sphere_mode_text
    (self : @DOCK.DOCKMetadata float SphereMode) :
  In "sphere_mode" DOCK.fields
  /\ ~ In "sphere_more" DOCK.fields
  /\ (base_getattr "sphere_more" = None ->
      DOCK.post_init from_str base_getattr self
      = match DOCK.sphere_mode self with
        | DOCK.ModeName _ => Raise AttributeError
        | DOCK.Mode _ => Return self
        end)
  /\ (forall s1 s2,
        let with_text s :=
          DOCK.mk_metadata (DOCK.probe_radius self) (DOCK.steric_clash_dist self)
            (DOCK.min_radius self) (DOCK.max_radius self) (DOCK.ModeName s)
            (DOCK.docked_ligand_file self) (DOCK.enclose_spheres self)
            (DOCK.buffer self) (DOCK.prepared_ligand self)
            (DOCK.prepared_receptor self) in
        DOCK.post_init from_str base_getattr (with_text s1)
        = DOCK.post_init from_str base_getattr (with_text s2)).
Proof.
  split; [|split; [|split]].
  - cbn. tauto.
  - cbn. intros H. repeat destruct H as [H|H]; try discriminate H. exact H.
  - intros Hbase. unfold DOCK.post_init, DOCK.getattr_inherited.
    rewrite Hbase. now destruct (DOCK.sphere_mode self).
  - intros s1 s2 with_text. reflexivity.
Qed.

End MetadataFacts.

Lemma post_init_sphere_mode_text_witness :
  DOCK.post_init (SphereMode := bool) (fun _ : string => Return true) (fun _ => None)
    (DOCK.mk_metadata (Qmake 14 10) (Qmake 0 1) (Qmake 14 10) (Qmake 4 1)
       (DOCK.ModeName "box") None true (Qmake 10 1) Pathlib.PNone None)
  = Raise AttributeError.
Proof.
  apply (post_init_sphere_mode_text (SphereMode := bool)
           (fun _ : string => Return true) (fun _ => None)
           (DOCK.mk_metadata (Qmake 14 10) (Qmake 0 1) (Qmake 14 10) (Qmake 4 1)
              (DOCK.ModeName "box") None true (Qmake 10 1) Pathlib.PNone None)).
  reflexivity.
Defined.

(** X15.  A calculation constructed without a result has no score yet:
    reading [score] raises [NotSimulatedError], whatever the other
    arguments of the construction are. *)
Theorem fresh_calculation_has_no_score
    {float num : Type} (shlex_split : string -> outcome (list string))
    (smi receptor : string) (software : Software)
    (center size : num * num * num) (ncpu : Z) (extra : option string)
    (name : string) (input_file : option string)
    (in_path out_path : Pathlib.pathlike)
    (mode : ScoreMode) (kk : option Z)
    (prepared_ligand prepared_receptor : Pathlib.pathlike)
    (v : VinaCalculationData float num) :
  VinaCalculationData_init shlex_split smi receptor software center size ncpu
    extra name input_file in_path out_path mode kk prepared_ligand
    prepared_receptor None = Return v ->
  score v = Raise (NotSimulatedError "Simulation has not been run!").
Proof.
  unfold VinaCalculationData_init.
  destruct (match extra with Some (String c rest) => _ | _ => _ end); [|discriminate].
  cbn [obind]. destruct (Pathlib.Path_ in_path); [|discriminate].
  cbn [obind]. destruct (Pathlib.Path_ out_path); [|discriminate].
  cbn [obind]. now intros [= <-].
Qed.

Lemma fresh_calculation_has_no_score_witness :
  score (mk_data (float := Q) (num := Z) "CCO" "rec.pdb" VINA (1, 2, 3)
           (10, 10, 10) 1 ["--exhaustiveness=16"] "lig" None
           (Pathlib.of_string "in") (Pathlib.of_string "out") BEST (Some 1)
           Pathlib.PNone Pathlib.PNone None)
  = Raise (NotSimulatedError "Simulation has not been run!").
Proof.
  apply (@fresh_calculation_has_no_score Q Z Examples.shlex_words "CCO" "rec.pdb"
           VINA (1, 2, 3) (10, 10, 10) 1 (Some "--exhaustiveness=16") "lig" None
           (Pathlib.PStr "in") (Pathlib.PStr "out") BEST (Some 1)
           Pathlib.PNone Pathlib.PNone).
  reflexivity.
Defined.

(** X16.  [score] reads the result and nothing else: recording a result
    whose ['score'] entry is [x] makes [score] return [x], whatever the
    other entries and whatever was recorded before; removing the entry
    makes it raise [InvalidResultError]; and attaching the prepared
    receptor or ligand leaves the score, or the error, as it was. *)
Theorem score_follows_result
    {float num : Type} (v : VinaCalculationData float num)
    (res : gmap string (pyval float)) (x : pyval float) (p : Pathlib.Path) :
  score (set_result v (<["score" := x]> res)) = Return x
  /\ (exists msg, score (set_result v (delete "score" res))
                  = Raise (InvalidResultError msg))
  /\ score (set_prepared_receptor v p) = score v
  /\ score (set_prepared_ligand v p) = score v.
Proof.
  unfold score. cbn [set_result result set_prepared_receptor set_prepared_ligand].
  rewrite lookup_insert_eq, lookup_delete_eq. eauto.
Qed.

(** ** More on the two loops of the log parser *)

(** X17.  The first loop of [parse_logfile] leaves the file just after
    the first line that contains the table border: the lines before it
    and the border line itself are consumed, the lines after it are all
    left unread; a file without a border line is read to its end. *)
Theorem skip_to_border_drops_header (pre : list string) :
  Forall (fun line => Py.contains VinaRunner.TABLE_BORDER line = false) pre ->
  VinaRunner.skip_to_border pre = []
  /\ forall border post,
       Py.contains VinaRunner.TABLE_BORDER border = true ->
       VinaRunner.skip_to_border (pre ++ border :: post) = post.
Proof.
  induction 1 as [|line pre Hline _ [IHnil IHapp]]; split.
  - reflexivity.
  - intros border post Hb. cbn [app VinaRunner.skip_to_border]. now rewrite Hb.
  - cbn [VinaRunner.skip_to_border]. now rewrite Hline.
  - intros border post Hb. cbn [app VinaRunner.skip_to_border].
    rewrite Hline. now apply IHapp.
Qed.

Lemma skip_to_border_drops_header_witness :
  VinaRunner.skip_to_border ["AutoDock Vina"; "mode |   affinity | dist from best mode"] = []
  /\ forall border post,
       Py.contains VinaRunner.TABLE_BORDER border = true ->
       VinaRunner.skip_to_border
         (["AutoDock Vina"; "mode |   affinity | dist from best mode"]
          ++ border :: post) = post.
Proof.
  apply (skip_to_border_drops_header
           ["AutoDock Vina"; "mode |   affinity | dist from best mode"]).
  repeat (constructor; [vm_compute; reflexivity|]). constructor.
Defined.

Section LoopFacts.
Context {float : Type} (py_float : string -> option float).

(** X18.  The scoring loop of [parse_logfile], run over a file that is
    still open, reads the rows up to the first line that contains
    'Writing' and nothing after it.  When every such row has at least
    two tokens it returns, after the scores it started with, the number
    read from the second token of each row, in the order of the file,
    the rows whose second token is not a number being passed over; when
    some row has fewer than two tokens it raises [IndexError].  It has
    no other outcome. *)
Theorem score_loop_open_outcome (lines : list string) (scores : list float) :
  VinaRunner.score_loop py_float false lines scores
  = if forallb (fun line => (2 <=? length (Py.split line))%nat) (table_rows lines)
    then Return (scores ++ omap (row_score py_float) (table_rows lines))
    else Raise IndexError.
Proof.
  revert scores. induction lines as [|line rest IH]; intros scores.
  - simpl. now rewrite app_nil_r.
  - cbn [VinaRunner.score_loop file_next closed unread table_rows].
    destruct (Py.contains "Writing" line); cbn [negb].
    + simpl. now rewrite app_nil_r.
    + cbn [forallb].
      change (omap (row_score py_float) (line :: table_rows rest))
        with (match row_score py_float line with
              | Some x => x :: omap (row_score py_float) (table_rows rest)
              | None => omap (row_score py_float) (table_rows rest)
              end).
      unfold VinaRunner.score_step, Py.getitem, row_score.
      destruct (Py.split line !! 1%nat) as [tok|] eqn:Htok.
      * assert (Hlen : (2 <=? length (Py.split line))%nat = true).
        { apply Nat.leb_le. apply lookup_lt_Some in Htok. lia. }
        rewrite Hlen. cbn [andb mbind option_bind].
        destruct (py_float tok) as [x|]; cbn [obind]; rewrite IH;
          destruct (forallb _ (table_rows rest)); try reflexivity.
        now rewrite <- app_assoc.
      * assert (Hlen : (2 <=? length (Py.split line))%nat = false).
        { apply Nat.leb_gt. apply lookup_ge_None in Htok. lia. }
        rewrite Hlen. reflexivity.
Qed.

End LoopFacts.
